(** * numba/_typeof.c: type fingerprints and typecode caches

    A shallow embedding of the fingerprint writer, the fingerprint encoder,
    the fingerprint hash table cache and the direct lookup table for arrays
    of [numba/_typeof.c], followed by the properties of the natural-language
    specification stated against it.

    Conventions of the embedding.
    - C integers are [Z]; conversions between C integer types are written
      out ([to_uchar], [to_char], [to_uint], [to_int]).  Sizes and indices
      ([size_t]) are [nat]: no size in this file approaches [2^64].
    - Bytes in memory are read back as [unsigned char], i.e. as [Z] in
      [0, 255].
    - The target is the LP64 build (x86-64 Linux): plain [char] is signed,
      [sizeof(npy_intp) = 8], [NPY_INT64 = NPY_LONG].
    - A function that returns [-1] with a Python exception set returns the
      exception; a write outside an allocation is the separate outcome
      [Fault] (undefined behaviour in C). *)

From stdpp Require Import base option list gmap strings.
From Stdlib Require Import ZArith Lia.

Set Warnings "-register-all".

(** ** C integer conversions *)

Definition to_uchar (z : Z) : Z := Z.land z 255.

Definition to_char (z : Z) : Z :=
  let u := (z mod 256)%Z in if (u <? 128)%Z then u else (u - 256)%Z.

Definition to_uint (z : Z) : Z := (z mod 2 ^ 32)%Z.

Definition to_int (z : Z) : Z :=
  let u := (z mod 2 ^ 32)%Z in if (u <? 2 ^ 31)%Z then u else (u - 2 ^ 32)%Z.

(** [Py_uhash_t] is an unsigned 64-bit integer. *)
Definition to_uhash (z : Z) : Z := (z mod 2 ^ 64)%Z.

(** ** The string writer *)

(** What [w->buf] can point to: the [static_buf] member of the
    [string_writer_t] located at address [owner], a heap block (the model
    keeps the block's bytes with the pointer, a block has one owner at a
    time), or [NULL]. *)
Inductive ptr :=
| PtrStaticBuf (owner : Z)
| PtrBlock (blk : list Z)
| PtrNull.

(** [typedef struct { char *buf; size_t n; size_t allocated;
    char static_buf[40]; } string_writer_t;] together with the address the
    struct lives at ([self]), which is what [w->static_buf] evaluates to. *)
Record string_writer_t := mk_writer {
  self : Z;
  sw_buf : ptr;
  sw_n : nat;
  sw_allocated : nat;
  sw_static_buf : list Z
}.

Definition set_buf (w : string_writer_t) (p : ptr) : string_writer_t :=
  mk_writer (self w) p (sw_n w) (sw_allocated w) (sw_static_buf w).

Definition set_n (w : string_writer_t) (k : nat) : string_writer_t :=
  mk_writer (self w) (sw_buf w) k (sw_allocated w) (sw_static_buf w).

Definition set_static_buf (w : string_writer_t) (l : list Z) : string_writer_t :=
  mk_writer (self w) (sw_buf w) (sw_n w) (sw_allocated w) l.

Definition STATIC_BUF_SIZE : nat := 40.

(** Python exceptions this file can leave set when it returns [-1]. *)
Inductive exc :=
| MemoryError            (* PyErr_NoMemory() *)
| NotImplementedError    (* fingerprint_unrecognized() *)
| DescrError             (* PyArray_DescrFromScalar() returned NULL *)
| ResolverError.         (* raised inside dispatcher.typeof_pyval / _code *)

(** Outcome of a function [int f(string_writer_t *w, ...)]. *)
Inductive status :=
| Ok (w : string_writer_t)                 (* returned 0 *)
| Raise (e : exc) (w : string_writer_t)    (* returned -1, exception set *)
| Fault.                                   (* out-of-bounds access *)

(** The [TRY] macro: go on after a zero return, leave otherwise. *)
Definition TRY (r : status) (k : string_writer_t → status) : status :=
  match r with
  | Ok w => k w
  | Raise e w => Raise e w
  | Fault => Fault
  end.

Notation "'try!' w ← r ; k" := (TRY r (λ w, k))
  (at level 20, w name, r at level 100, k at level 200, only parsing).

(** The C allocator.  Whether a request fails and what a fresh block
    contains are not decided by the program: they are given by an oracle.
    [alloc_fails k] tells whether the request made when [k] bytes have been
    written fails; [fresh i] is the indeterminate byte found at offset [i]
    of freshly obtained memory. *)
Record heap_oracle := mk_heap {
  alloc_fails : nat → bool;
  fresh : nat → Z
}.

Definition malloc (H : heap_oracle) (at_n size : nat) : option (list Z) :=
  if alloc_fails H at_n then None
  else Some ((λ i, to_uchar (fresh H i)) <$> seq 0 size).

(** [realloc] keeps the old contents up to the smaller of the two sizes. *)
Definition realloc (H : heap_oracle) (at_n : nat) (old : list Z) (size : nat)
  : option (list Z) :=
  if alloc_fails H at_n then None
  else Some (take size old ++
             ((λ i, to_uchar (fresh H i)) <$> seq (length old) (size - length old))).

Definition string_writer_init (w : string_writer_t) : string_writer_t :=
  mk_writer (self w) (PtrStaticBuf (self w)) 0 STATIC_BUF_SIZE (sw_static_buf w).

Definition buf_is_static (w : string_writer_t) : bool :=
  match sw_buf w with
  | PtrStaticBuf a => bool_decide (a = self w)
  | _ => false
  end.

Section writer.
Variable H : heap_oracle.

Definition string_writer_ensure (w : string_writer_t) (bytes : nat) : status :=
  if (sw_n w + bytes <=? sw_allocated w)%nat then Ok w
  else
    let newsize := (sw_allocated w * 4 + 1)%nat in
    if buf_is_static w then
      match malloc H (sw_n w) newsize with
      | Some blk => Ok (set_buf w (PtrBlock blk))
      | None => Raise MemoryError (set_buf w PtrNull)
      end
    else
      match sw_buf w with
      | PtrBlock old =>
          match realloc H (sw_n w) old newsize with
          | Some blk => Ok (set_buf w (PtrBlock blk))
          | None => Raise MemoryError (set_buf w PtrNull)
          end
      | PtrNull =>
          match malloc H (sw_n w) newsize with
          | Some blk => Ok (set_buf w (PtrBlock blk))
          | None => Raise MemoryError (set_buf w PtrNull)
          end
      | PtrStaticBuf _ => Fault
      end.

(** [w->buf[i] = c]. *)
Definition store (w : string_writer_t) (i : nat) (c : Z) : status :=
  match sw_buf w with
  | PtrStaticBuf a =>
      if bool_decide (a = self w) && (i <? length (sw_static_buf w))%nat
      then Ok (set_static_buf w (<[i := to_uchar c]> (sw_static_buf w)))
      else Fault
  | PtrBlock blk =>
      if (i <? length blk)%nat
      then Ok (set_buf w (PtrBlock (<[i := to_uchar c]> blk)))
      else Fault
  | PtrNull => Fault
  end.

Definition string_writer_put_char (w : string_writer_t) (c : Z) : status :=
  try! w ← string_writer_ensure w 1;
  try! w ← store w (sw_n w) (to_uchar c);
  Ok (set_n w (sw_n w + 1)).

Definition string_writer_put_int32 (w : string_writer_t) (v : Z) : status :=
  let v := to_uint v in
  try! w ← string_writer_ensure w 4;
  try! w ← store w (sw_n w) (Z.land v 255);
  try! w ← store w (sw_n w + 1) (Z.land (Z.shiftr v 8) 255);
  try! w ← store w (sw_n w + 2) (Z.land (Z.shiftr v 16) 255);
  try! w ← store w (sw_n w + 3) (Z.land (Z.shiftr v 24) 255);
  Ok (set_n w (sw_n w + 4)).

(** [sizeof(npy_intp)]. *)
Definition SIZEOF_NPY_INTP : nat := 8.

Definition string_writer_put_intp (w : string_writer_t) (v : Z) : status :=
  let N := SIZEOF_NPY_INTP in
  try! w ← string_writer_ensure w N;
  try! w ← store w (sw_n w) (Z.land v 255);
  try! w ← store w (sw_n w + 1) (Z.land (Z.shiftr v 8) 255);
  try! w ← store w (sw_n w + 2) (Z.land (Z.shiftr v 16) 255);
  try! w ← store w (sw_n w + 3) (Z.land (Z.shiftr v 24) 255);
  try! w ← (if (4 <? N)%nat then
              try! w ← store w (sw_n w + 4) (Z.land (Z.shiftr v 32) 255);
              try! w ← store w (sw_n w + 5) (Z.land (Z.shiftr v 40) 255);
              try! w ← store w (sw_n w + 6) (Z.land (Z.shiftr v 48) 255);
              store w (sw_n w + 7) (Z.land (Z.shiftr v 56) 255)
            else Ok w);
  Ok (set_n w (sw_n w + N)).

(** [memcpy(w->buf + i, s, N)], one byte at a time. *)
Fixpoint store_bytes (w : string_writer_t) (i : nat) (s : list Z) : status :=
  match s with
  | [] => Ok w
  | c :: s' => try! w ← store w i c; store_bytes w (S i) s'
  end.

(** A C string is the list of its characters before the terminating zero;
    [None] is the [NULL] pointer. *)
Definition string_writer_put_string (w : string_writer_t) (s : option (list Z))
  : status :=
  match s with
  | None => string_writer_put_char w 0
  | Some s =>
      let N := (length s + 1)%nat in
      try! w ← string_writer_ensure w N;
      try! w ← store_bytes w (sw_n w) (s ++ [0%Z]);
      Ok (set_n w (sw_n w + N))
  end.
End writer.

(** The [w->n] bytes at [w->buf], as [PyBytes_FromStringAndSize(w.buf, w.n)]
    and [memcmp] read them when [w] is the live writer of the running call. *)
Definition writer_bytes (w : string_writer_t) : list Z :=
  match sw_buf w with
  | PtrStaticBuf _ => take (sw_n w) (sw_static_buf w)
  | PtrBlock blk => take (sw_n w) blk
  | PtrNull => []
  end.

(** ** The host object model seen through the checks of the encoder *)

(** Numpy type numbers ([enum NPY_TYPES]) used by this file; the sized
    aliases are those of the LP64 build. *)
Definition NPY_BYTE : Z := 1.
Definition NPY_UBYTE : Z := 2.
Definition NPY_SHORT : Z := 3.
Definition NPY_USHORT : Z := 4.
Definition NPY_INT : Z := 5.
Definition NPY_UINT : Z := 6.
Definition NPY_LONG : Z := 7.
Definition NPY_ULONG : Z := 8.
Definition NPY_FLOAT : Z := 11.
Definition NPY_DOUBLE : Z := 12.
Definition NPY_CFLOAT : Z := 14.
Definition NPY_CDOUBLE : Z := 15.
Definition NPY_OBJECT : Z := 17.
Definition NPY_VOID : Z := 20.
Definition NPY_DATETIME : Z := 21.
Definition NPY_TIMEDELTA : Z := 22.

Definition NPY_INT8 : Z := NPY_BYTE.
Definition NPY_INT16 : Z := NPY_SHORT.
Definition NPY_INT32 : Z := NPY_INT.
Definition NPY_INT64 : Z := NPY_LONG.
Definition NPY_UINT8 : Z := NPY_UBYTE.
Definition NPY_UINT16 : Z := NPY_USHORT.
Definition NPY_UINT32 : Z := NPY_UINT.
Definition NPY_UINT64 : Z := NPY_ULONG.
Definition NPY_FLOAT32 : Z := NPY_FLOAT.
Definition NPY_FLOAT64 : Z := NPY_DOUBLE.
Definition NPY_COMPLEX64 : Z := NPY_CFLOAT.
Definition NPY_COMPLEX128 : Z := NPY_CDOUBLE.

Definition PyTypeNum_ISDATETIME (t : Z) : bool :=
  (NPY_DATETIME <=? t)%Z && (t <=? NPY_TIMEDELTA)%Z.

(** [PyArray_DatetimeMetaData]: [base] (the time unit) and [num] (the
    multiplier), both C [int]s. *)
Record PyArray_DatetimeMetaData := mk_meta {
  md_base : Z;
  md_num : Z
}.

(** A dtype object: its address (its identity), [type_num], whether its
    byte order is the machine's, and [c_metadata] ([NULL] unless the dtype
    is a datetime or timedelta). *)
Record PyArray_Descr := mk_descr {
  descr_addr : Z;
  type_num : Z;
  descr_notswapped : bool;
  c_metadata : option PyArray_DatetimeMetaData
}.

(** What this file reads of a [PyArrayObject]: [PyArray_NDIM], the flags
    [NPY_ARRAY_C_CONTIGUOUS], [NPY_ARRAY_F_CONTIGUOUS], [NPY_ARRAY_ALIGNED],
    [NPY_ARRAY_WRITEABLE], and [PyArray_DESCR]. *)
Record PyArrayObject := mk_array {
  nd : Z;
  flag_c_contiguous : bool;
  flag_f_contiguous : bool;
  flag_aligned : bool;
  flag_writeable : bool;
  descr : PyArray_Descr
}.

Definition PyArray_NDIM (a : PyArrayObject) : Z := nd a.
Definition PyArray_DESCR (a : PyArrayObject) : PyArray_Descr := descr a.
Definition PyArray_TYPE (a : PyArrayObject) : Z := type_num (descr a).
Definition PyArray_IS_C_CONTIGUOUS (a : PyArrayObject) : bool := flag_c_contiguous a.
Definition PyArray_IS_F_CONTIGUOUS (a : PyArrayObject) : bool := flag_f_contiguous a.
Definition PyArray_ISWRITEABLE (a : PyArrayObject) : bool := flag_writeable a.
Definition PyArray_ISNOTSWAPPED (a : PyArrayObject) : bool := descr_notswapped (descr a).

(** [PyArray_ISCARRAY(m)] is [PyArray_FLAGSWAP(m, NPY_ARRAY_CARRAY)], that is
    [PyArray_CHKFLAGS(m, C_CONTIGUOUS | ALIGNED | WRITEABLE) &&
     PyArray_ISNOTSWAPPED(m)]; [PyArray_ISFARRAY] is the same with
    [F_CONTIGUOUS] (numpy's ndarraytypes.h). *)
Definition PyArray_ISCARRAY (a : PyArrayObject) : bool :=
  flag_c_contiguous a && flag_aligned a && flag_writeable a && PyArray_ISNOTSWAPPED a.

Definition PyArray_ISFARRAY (a : PyArrayObject) : bool :=
  flag_f_contiguous a && flag_aligned a && flag_writeable a && PyArray_ISNOTSWAPPED a.

(** A view filled in by [PyObject_GetBuffer]: [ndim], what
    [PyBuffer_IsContiguous(&buf, 'C')] and [(&buf, 'F')] answer, [readonly]
    and [format] ([None] is [NULL]). *)
Record Py_buffer := mk_view {
  view_ndim : Z;
  view_c_contiguous : bool;
  view_f_contiguous : bool;
  view_readonly : bool;
  view_format : option (list Z)
}.

(** An object whose type has the buffer slot: what [PyObject_GetBuffer]
    answers with and without [PyBUF_WRITABLE] ([None] is failure), and the
    address of its type object. *)
Record buffer_object := mk_bufobj {
  getbuffer_writable : option Py_buffer;
  getbuffer_readonly : option Py_buffer;
  ob_type : Z
}.

(** Runtime values.  Contents that the encoder never reads are kept for
    booleans and integers to tell values of one type apart. *)
Inductive PyObject :=
| PyNone
| PyBool (b : bool)
| PyInt (z : Z)
| PyLong (z : Z)
| PyFloat
| PyComplex
| PyTuple (items : list PyObject)
| PyBytes
| PyByteArray
| NpScalar (d : option PyArray_Descr)   (* what PyArray_DescrFromScalar returns *)
| NpArray (a : PyArrayObject)
| PyBufferObj (b : buffer_object)
| NpDescr (d : PyArray_Descr)
| PyOpaque (type_addr : Z).

(** The type checks, with the subtype relations of the host: [bool] is a
    subclass of [int], and bytes, bytearrays and arrays expose the buffer
    protocol too. *)
Definition Py_IsNone (v : PyObject) : bool :=
  match v with PyNone => true | _ => false end.
Definition PyBool_Check (v : PyObject) : bool :=
  match v with PyBool _ => true | _ => false end.
Definition PyInt_Check (v : PyObject) : bool :=
  match v with PyBool _ | PyInt _ => true | _ => false end.
Definition PyLong_Check (v : PyObject) : bool :=
  match v with PyLong _ => true | _ => false end.
Definition PyFloat_Check (v : PyObject) : bool :=
  match v with PyFloat => true | _ => false end.
Definition PyComplex_CheckExact (v : PyObject) : bool :=
  match v with PyComplex => true | _ => false end.
Definition PyTuple_Check (v : PyObject) : bool :=
  match v with PyTuple _ => true | _ => false end.
Definition PyBytes_Check (v : PyObject) : bool :=
  match v with PyBytes => true | _ => false end.
Definition PyByteArray_Check (v : PyObject) : bool :=
  match v with PyByteArray => true | _ => false end.
Definition PyArray_IsScalar_Generic (v : PyObject) : bool :=
  match v with NpScalar _ => true | _ => false end.
Definition PyArray_Check (v : PyObject) : bool :=
  match v with NpArray _ => true | _ => false end.
Definition PyObject_CheckBuffer (v : PyObject) : bool :=
  match v with
  | PyBytes | PyByteArray | NpArray _ | PyBufferObj _ => true
  | _ => false
  end.
Definition PyArray_DescrCheck (v : PyObject) : bool :=
  match v with NpDescr _ => true | _ => false end.

(** ** The fingerprint encoder *)

(** [enum opcode] and the layout and mutability characters. *)
Definition OP_START_TUPLE : Z := 40.   (* '(' *)
Definition OP_END_TUPLE : Z := 41.     (* ')' *)
Definition OP_INT : Z := 105.          (* 'i' *)
Definition OP_FLOAT : Z := 102.        (* 'f' *)
Definition OP_COMPLEX : Z := 99.       (* 'c' *)
Definition OP_BOOL : Z := 63.          (* '?' *)
Definition OP_BYTEARRAY : Z := 97.     (* 'a' *)
Definition OP_BYTES : Z := 98.         (* 'b' *)
Definition OP_NONE : Z := 110.         (* 'n' *)
Definition OP_BUFFER : Z := 66.        (* 'B' *)
Definition OP_NP_SCALAR : Z := 83.     (* 'S' *)
Definition OP_NP_ARRAY : Z := 65.      (* 'A' *)
Definition OP_NP_DTYPE : Z := 68.      (* 'D' *)
Definition CH_C : Z := 67.
Definition CH_F : Z := 70.
Definition CH_A : Z := 65.
Definition CH_W : Z := 87.
Definition CH_R : Z := 82.

Definition fingerprint_unrecognized (w : string_writer_t) : status :=
  Raise NotImplementedError w.

Section encoder.
Variable H : heap_oracle.

Definition compute_dtype_fingerprint (w : string_writer_t) (descr : PyArray_Descr)
  : status :=
  let typenum := type_num descr in
  if (typenum <? NPY_OBJECT)%Z then string_writer_put_char H w (to_char typenum)
  else if (typenum =? NPY_VOID)%Z then
    try! w ← string_writer_put_char H w (to_char typenum);
    string_writer_put_intp H w (descr_addr descr)
  else if PyTypeNum_ISDATETIME typenum then
    match c_metadata descr with
    | Some md =>
        try! w ← string_writer_put_char H w (to_char typenum);
        try! w ← string_writer_put_char H w (to_char (md_base md));
        string_writer_put_int32 H w (to_char (md_num md))
    | None => Fault
    end
  else fingerprint_unrecognized w.

(** The layout character of the array branch of [compute_fingerprint]. *)
Definition array_layout_char (ary : PyArrayObject) : Z :=
  if PyArray_IS_C_CONTIGUOUS ary then CH_C
  else if PyArray_IS_F_CONTIGUOUS ary then CH_F
  else CH_A.

Definition compute_buffer_fingerprint (w : string_writer_t) (b : buffer_object)
  : status :=
  let view :=
    match getbuffer_writable b with
    | Some v => Some v
    | None => getbuffer_readonly b
    end in
  match view with
  | None => fingerprint_unrecognized w
  | Some buf =>
      let contig :=
        if view_c_contiguous buf then CH_C
        else if view_f_contiguous buf then CH_F
        else CH_A in
      let ndim := view_ndim buf in
      let readonly := if view_readonly buf then CH_R else CH_W in
      try! w ← string_writer_put_char H w OP_BUFFER;
      try! w ← string_writer_put_int32 H w ndim;
      try! w ← string_writer_put_char H w contig;
      try! w ← string_writer_put_char H w readonly;
      try! w ← string_writer_put_string H w (view_format buf);
      string_writer_put_intp H w (ob_type b)
  end.

Fixpoint compute_fingerprint (w : string_writer_t) (val : PyObject) {struct val}
  : status :=
  if Py_IsNone val then string_writer_put_char H w OP_NONE
  else if PyBool_Check val then string_writer_put_char H w OP_BOOL
  else if PyInt_Check val || PyLong_Check val then string_writer_put_char H w OP_INT
  else if PyFloat_Check val then string_writer_put_char H w OP_FLOAT
  else if PyComplex_CheckExact val then string_writer_put_char H w OP_COMPLEX
  else
    match val with
    | PyTuple items =>
        try! w ← string_writer_put_char H w OP_START_TUPLE;
        try! w ← (fix loop (items : list PyObject) (w : string_writer_t) : status :=
                    match items with
                    | [] => Ok w
                    | item :: rest =>
                        try! w ← compute_fingerprint w item; loop rest w
                    end) items w;
        try! w ← string_writer_put_char H w OP_END_TUPLE;
        Ok w
    | _ =>
        if PyBytes_Check val then string_writer_put_char H w OP_BYTES
        else if PyByteArray_Check val then string_writer_put_char H w OP_BYTEARRAY
        else
          match val with
          | NpScalar d =>
              match d with
              | None => Raise DescrError w
              | Some descr =>
                  try! w ← string_writer_put_char H w OP_NP_SCALAR;
                  try! w ← compute_dtype_fingerprint w descr;
                  Ok w
              end
          | NpArray ary =>
              let ndim := PyArray_NDIM ary in
              try! w ← string_writer_put_char H w OP_NP_ARRAY;
              try! w ← string_writer_put_int32 H w ndim;
              try! w ← string_writer_put_char H w (array_layout_char ary);
              try! w ← (if PyArray_ISWRITEABLE ary
                        then string_writer_put_char H w CH_W
                        else string_writer_put_char H w CH_R);
              compute_dtype_fingerprint w (PyArray_DESCR ary)
          | PyBufferObj b => compute_buffer_fingerprint w b
          | NpDescr d =>
              try! w ← string_writer_put_char H w OP_NP_DTYPE;
              compute_dtype_fingerprint w d
          | _ => fingerprint_unrecognized w
          end
    end.

(** The element loop of the tuple branch, named for the proofs. *)
Definition compute_items (items : list PyObject) (w : string_writer_t) : status :=
  (fix loop (items : list PyObject) (w : string_writer_t) : status :=
     match items with
     | [] => Ok w
     | item :: rest => try! w ← compute_fingerprint w item; loop rest w
     end) items w.

(** [typeof_compute_fingerprint]: the bytes object, or the exception. *)
Inductive fingerprint_result :=
| FpBytes (bs : list Z)
| FpError (e : exc)
| FpFault.

Definition typeof_compute_fingerprint (val : PyObject) : fingerprint_result :=
  let w := string_writer_init (mk_writer 0 PtrNull 0 0 (replicate STATIC_BUF_SIZE 0%Z)) in
  match compute_fingerprint w val with
  | Ok w => FpBytes (writer_bytes w)
  | Raise e _ => FpError e
  | Fault => FpFault
  end.
End encoder.



(** ** The resolver: [dispatcher.typeof_pyval(val)._code] *)

(** The dispatcher is outside this file.  [typeof_pyval d val] is [None]
    when the call raises, [Some None] when the returned type object has no
    [_code], and [Some (Some c)] when [PyLong_AsLong] of its [_code] is the
    C long [c]. *)
Record dispatcher := mk_dispatcher {
  typeof_pyval : PyObject → option (option Z)
}.

(** ** Process state *)

(** An entry of the fingerprint hash table: the hash computed when the key
    was inserted, the [string_writer_t] the key pointer points to, and the
    typecode. *)
Record entry := mk_entry {
  key_hash : Z;
  key : string_writer_t;
  data : Z
}.

(** The state this file keeps or touches between calls:
    - [stack]: for a stack address [a], the 40 bytes a [string_writer_t]
      located at [a] has (or, once its function has returned, has left) in
      its [static_buf];
    - [fingerprint_hashtable]: [None] is [NULL], otherwise the entries, most
      recent first;
    - [cached_arycode]: the [N_NDIM * N_LAYOUT * N_DTYPES] ints of the C
      array in row-major order;
    - [err]: the Python error indicator;
    - [resolver_log]: the calls made to the resolver, most recent first,
      each with its [retain_reference] flag. *)
Record world := mk_world {
  stack : gmap Z (list Z);
  fingerprint_hashtable : option (list entry);
  cached_arycode : list Z;
  err : option exc;
  resolver_log : list (PyObject * bool)
}.

Definition set_stack (s : world) (m : gmap Z (list Z)) : world :=
  mk_world m (fingerprint_hashtable s) (cached_arycode s) (err s) (resolver_log s).
Definition set_hashtable (s : world) (t : option (list entry)) : world :=
  mk_world (stack s) t (cached_arycode s) (err s) (resolver_log s).
Definition set_arycode (s : world) (l : list Z) : world :=
  mk_world (stack s) (fingerprint_hashtable s) l (err s) (resolver_log s).
Definition set_err (s : world) (e : option exc) : world :=
  mk_world (stack s) (fingerprint_hashtable s) (cached_arycode s) e (resolver_log s).
Definition log_call (s : world) (val : PyObject) (retain : bool) : world :=
  mk_world (stack s) (fingerprint_hashtable s) (cached_arycode s) (err s)
           ((val, retain) :: resolver_log s).

Definition _typecode_fallback (d : dispatcher) (val : PyObject) (retain_reference : bool)
  (s : world) : Z * world :=
  let s := log_call s val retain_reference in
  match typeof_pyval d val with
  | None => ((-1)%Z, set_err s (Some ResolverError))
  | Some None => ((-1)%Z, set_err s (Some ResolverError))
  | Some (Some c) => (to_int c, s)
  end.

Definition typecode_fallback (d : dispatcher) (val : PyObject) (s : world) : Z * world :=
  _typecode_fallback d val false s.

Definition typecode_fallback_keep_ref (d : dispatcher) (val : PyObject) (s : world)
  : Z * world :=
  _typecode_fallback d val true s.

(** ** The fingerprint cache *)

(** The bytes found at the address a pointer holds. *)
Definition deref (stk : gmap Z (list Z)) (p : ptr) : list Z :=
  match p with
  | PtrStaticBuf a => default [] (stk !! a)
  | PtrBlock blk => blk
  | PtrNull => []
  end.

(** The [w->n] bytes at [w->buf], read from memory. *)
Definition read_bytes (stk : gmap Z (list Z)) (w : string_writer_t) : list Z :=
  take (sw_n w) (deref stk (sw_buf w)).

(** The loop of [hash_writer] over the bytes. *)
Definition hash_bytes (bytes : list Z) : Z :=
  match bytes with
  | [] => 0%Z
  | p0 :: _ =>
      let x := to_uhash (Z.lxor 0 (Z.shiftl p0 7)) in
      let x := fold_left (λ x c, to_uhash (Z.lxor (1000003 * x) c)) bytes x in
      let x := Z.lxor x (Z.of_nat (length bytes)) in
      if (x =? 2 ^ 64 - 1)%Z then (2 ^ 64 - 2)%Z else x
  end.

Definition hash_writer (stk : gmap Z (list Z)) (writer : string_writer_t) : Z :=
  hash_bytes (read_bytes stk writer).

Definition compare_writer (stk : gmap Z (list Z)) (v : string_writer_t) (e : entry)
  : bool :=
  let w := key e in
  if negb (sw_n v =? sw_n w)%nat then false
  else bool_decide (take (sw_n v) (deref stk (sw_buf v))
                    = take (sw_n v) (deref stk (sw_buf w))).

(** Modelled from the spec: the hash table of numba/_hashtable.c, which is
    not part of the sources at hand.  The table is looked up by the content
    hash first and then by the comparison function (section 4.2: a hash
    collision falls back to the full comparison), entries are never deleted
    or updated, and an insertion can fail for lack of memory. *)
Definition _Py_HASHTABLE_GET (stk : gmap Z (list Z)) (ht : list entry)
  (w : string_writer_t) : option Z :=
  data <$> find (λ e, (key_hash e =? hash_writer stk w)%Z && compare_writer stk w e) ht.

(** Modelled from the spec: insertion into the hash table of
    numba/_hashtable.c; the hash of the new key is computed on insertion. *)
Definition _Py_HASHTABLE_SET (stk : gmap Z (list Z)) (ht : list entry)
  (k : string_writer_t) (typecode : Z) : list entry :=
  mk_entry (hash_writer stk k) k typecode :: ht.

(** What a call of [typecode_using_fingerprint] does not decide itself:
    the stack address of its local [w], the allocator behind the writer,
    whether [_Py_hashtable_new] and [_Py_HASHTABLE_SET] fail, and the
    address [malloc] returns for the key ([None]: it fails). *)
Record call_env := mk_env {
  sp : Z;
  heap : heap_oracle;
  hashtable_new_fails : bool;
  key_malloc : option Z;
  hashtable_set_fails : bool
}.

(** The contents of the 40 bytes at stack address [a]. *)
Definition frame (stk : gmap Z (list Z)) (a : Z) : list Z :=
  resize STATIC_BUF_SIZE 0%Z (default [] (stk !! a)).

(** The local [string_writer_t w] of a call, after [string_writer_init]:
    it lives at [sp env] and its [static_buf] holds whatever the stack held
    there. *)
Definition local_writer (env : call_env) (s : world) : string_writer_t :=
  string_writer_init (mk_writer (sp env) PtrNull 0 0 (frame (stack s) (sp env))).

(** [None] is undefined behaviour (a [Fault] of the writer). *)
Definition typecode_using_fingerprint (d : dispatcher) (env : call_env)
  (val : PyObject) (s : world) : option (Z * world) :=
  let created :=
    match fingerprint_hashtable s with
    | Some ht => Some ht
    | None => if hashtable_new_fails env then None else Some []
    end in
  match created with
  | None => Some ((-1)%Z, set_err s (Some MemoryError))
  | Some ht =>
      let s := set_hashtable s (Some ht) in
      let w := local_writer env s in
      match compute_fingerprint (heap env) w val with
      | Fault => None
      | Raise e w =>
          let s := set_stack s (<[sp env := sw_static_buf w]> (stack s)) in
          match e with
          | NotImplementedError => Some (typecode_fallback d val (set_err s None))
          | _ => Some ((-1)%Z, set_err s (Some e))
          end
      | Ok w =>
          let s := set_stack s (<[sp env := sw_static_buf w]> (stack s)) in
          match _Py_HASHTABLE_GET (stack s) ht w with
          | Some typecode => Some (typecode, s)
          | None =>
              let '(typecode, s) := typecode_fallback_keep_ref d val s in
              if (0 <=? typecode)%Z then
                match key_malloc env with
                | None => Some ((-1)%Z, set_err s (Some MemoryError))
                | Some a =>
                    (* memcpy(key, &w, sizeof(string_writer_t)) *)
                    let k := mk_writer a (sw_buf w) (sw_n w) (sw_allocated w)
                                       (sw_static_buf w) in
                    if hashtable_set_fails env
                    then Some ((-1)%Z, set_err s (Some MemoryError))
                    else Some (typecode,
                               set_hashtable s
                                 (Some (_Py_HASHTABLE_SET (stack s) ht k typecode)))
                end
              else Some (typecode, s)
          end
      end
  end.

(** ** The direct lookup table for arrays *)

Definition N_DTYPES : Z := 12.
Definition N_NDIM : Z := 5.
Definition N_LAYOUT : Z := 3.

Definition dtype_num_to_typecode (type_num : Z) : Z :=
  if (type_num =? NPY_INT8)%Z then 0
  else if (type_num =? NPY_INT16)%Z then 1
  else if (type_num =? NPY_INT32)%Z then 2
  else if (type_num =? NPY_INT64)%Z then 3
  else if (type_num =? NPY_UINT8)%Z then 4
  else if (type_num =? NPY_UINT16)%Z then 5
  else if (type_num =? NPY_UINT32)%Z then 6
  else if (type_num =? NPY_UINT64)%Z then 7
  else if (type_num =? NPY_FLOAT32)%Z then 8
  else if (type_num =? NPY_FLOAT64)%Z then 9
  else if (type_num =? NPY_COMPLEX64)%Z then 10
  else if (type_num =? NPY_COMPLEX128)%Z then 11
  else (-1)%Z.

(** The layout index of [typecode_ndarray]. *)
Definition ndarray_layout (ary : PyArrayObject) : Z :=
  if PyArray_ISCARRAY ary then 1%Z
  else if PyArray_ISFARRAY ary then 2%Z
  else 0%Z.

(** Offset of [cached_arycode[i][layout][dtype]] in the array. *)
Definition arycode_index (i layout dtype : Z) : nat :=
  Z.to_nat ((i * N_LAYOUT + layout) * N_DTYPES + dtype).

Definition typecode_ndarray (d : dispatcher) (env : call_env) (ary : PyArrayObject)
  (s : world) : option (Z * world) :=
  let ndim := PyArray_NDIM ary in
  let layout := ndarray_layout ary in
  if (ndim <=? 0)%Z || (N_NDIM <? ndim)%Z
  then typecode_using_fingerprint d env (NpArray ary) s
  else
    let dtype := dtype_num_to_typecode (PyArray_TYPE ary) in
    if (dtype =? -1)%Z
    then typecode_using_fingerprint d env (NpArray ary) s
    else
      match cached_arycode s !! arycode_index (ndim - 1) layout dtype with
      | None => None
      | Some typecode =>
          if (typecode =? -1)%Z then
            let '(typecode, s) := typecode_fallback_keep_ref d (NpArray ary) s in
            Some (typecode,
                  set_arycode s (<[arycode_index (ndim - 1) layout dtype := typecode]>
                                   (cached_arycode s)))
          else Some (typecode, s)
      end.

(** ** The entry point *)

Definition typeof_typecode (d : dispatcher) (env : call_env) (val : PyObject)
  (s : world) : option (Z * world) :=
  match val with
  | NpArray ary => typecode_ndarray d env ary s
  | _ => typecode_using_fingerprint d env val s
  end.

(** The state [typeof_init] leaves: every int of [cached_arycode] has all
    its bits set, the hash table does not exist yet. *)
Definition typeof_init : world :=
  mk_world ∅ None (replicate (Z.to_nat (N_NDIM * N_LAYOUT * N_DTYPES)) (-1)%Z) None [].

(** ** Concrete inputs used by the examples *)

(** Two allocators that never fail and hand out memory filled with [0x00],
    respectively [0xff]. *)
Definition heap_zero : heap_oracle := mk_heap (λ _, false) (λ _, 0%Z).
Definition heap_ff : heap_oracle := mk_heap (λ _, false) (λ _, 255%Z).

(** A call whose local writer lives at stack address [a] and in which no
    allocation fails. *)
Definition env_at (a : Z) : call_env :=
  mk_env a heap_zero false (Some (4096 + a)%Z) false.

(** The native float64 dtype and a [datetime64] dtype with unit [base] and
    multiplier [num]. *)
Definition float64_descr : PyArray_Descr := mk_descr 1000 NPY_FLOAT64 true None.
Definition datetime_descr (base num : Z) : PyArray_Descr :=
  mk_descr 2000 NPY_DATETIME true (Some (mk_meta base num)).

(** A tuple of 39 integers: its fingerprint has 41 bytes. *)
Definition tuple39 (z : Z) : PyObject := PyTuple (replicate 39 (PyInt z)).

(** [v] as a 4-byte little-endian integer. *)
Definition le32 (v : Z) : list Z :=
  [Z.land v 255; Z.land (Z.shiftr v 8) 255;
   Z.land (Z.shiftr v 16) 255; Z.land (Z.shiftr v 24) 255].

(** A resolver that answers by the kind of the value: it tells arrays
    apart by the layout ([C], then [F], else [A]) and the mutability the
    encoder records. *)
Definition disp_kind : dispatcher :=
  mk_dispatcher (λ v,
    match v with
    | PyNone => Some (Some 7%Z)
    | PyInt _ => Some (Some 8%Z)
    | NpArray a =>
        Some (Some (100 + array_layout_char a
                    + (if PyArray_ISWRITEABLE a then 0 else 1000))%Z)
    | _ => Some (Some 9%Z)
    end).

(** A resolver whose type objects carry the invalid code [-2]. *)
Definition disp_invalid : dispatcher := mk_dispatcher (λ _, Some (Some (-2)%Z)).

(** Rank-1 float64 arrays: C-contiguous and writable, C-contiguous and
    read-only, and writable but not contiguous. *)
Definition ary_c : PyArrayObject := mk_array 1 true false true true float64_descr.
Definition ary_c_readonly : PyArrayObject := mk_array 1 true false true false float64_descr.
Definition ary_strided : PyArrayObject := mk_array 1 false false true true float64_descr.

(** A rank-8 C-contiguous writable float64 array. *)
Definition ary_rank8 : PyArrayObject := mk_array 8 true false true true float64_descr.

(** A sequence of calls of one entry point, each with its environment:
    the typecodes returned and the final state. *)
Fixpoint run_calls (f : call_env → PyObject → world → option (Z * world))
  (calls : list (call_env * PyObject)) (s : world) : option (list Z * world) :=
  match calls with
  | [] => Some ([], s)
  | (env, val) :: rest =>
      match f env val s with
      | None => None
      | Some (t, s) =>
          match run_calls f rest s with
          | None => None
          | Some (ts, s) => Some (t :: ts, s)
          end
      end
  end.

Definition state_after (f : call_env → PyObject → world → option (Z * world))
  (calls : list (call_env * PyObject)) (s : world) : world :=
  match run_calls f calls s with
  | Some (_, s') => s'
  | None => s
  end.

(** How many of the logged resolver calls were for a value satisfying [p]. *)
Fixpoint count_calls (p : PyObject → bool) (log : list (PyObject * bool)) : nat :=
  match log with
  | [] => 0
  | (v, _) :: rest => (if p v then 1 else 0) + count_calls p rest
  end.

(** The writer a call located at stack address [a] holds after encoding
    [None]. *)
Definition none_writer (a : Z) : string_writer_t :=
  mk_writer a (PtrStaticBuf a) 1 STATIC_BUF_SIZE (OP_NONE :: replicate 39 0%Z).

(** * Lemmas on the writer while it stays in its inline buffer *)

(** The writer still uses its own [static_buf]. *)
Definition wf_static (w : string_writer_t) : Prop :=
  sw_buf w = PtrStaticBuf (self w)
  ∧ sw_allocated w = STATIC_BUF_SIZE
  ∧ length (sw_static_buf w) = STATIC_BUF_SIZE
  ∧ sw_n w ≤ STATIC_BUF_SIZE.

(** [w'] is [w] with the bytes [bs] appended, still inline. *)
Definition appended (w : string_writer_t) (bs : list Z) (w' : string_writer_t) : Prop :=
  wf_static w'
  ∧ self w' = self w
  ∧ sw_n w' = sw_n w + length bs
  ∧ writer_bytes w' = writer_bytes w ++ bs.

Lemma to_uchar_idemp z : to_uchar (to_uchar z) = to_uchar z.
Proof.
  unfold to_uchar. rewrite <- Z.land_assoc. reflexivity.
Qed.

Lemma to_uchar_land z : to_uchar (Z.land z 255) = Z.land z 255.
Proof. apply to_uchar_idemp. Qed.

Lemma take_insert_snoc (l pre : list Z) (k : nat) (c : Z) :
  k < length l → take k l = pre → take (S k) (<[k := c]> l) = pre ++ [c].
Proof.
  intros Hk Hpre.
  rewrite (take_S_r _ _ c) by (apply list_lookup_insert_eq; exact Hk).
  rewrite take_insert_ge by lia. rewrite Hpre. reflexivity.
Qed.

(** Consecutive byte stores [l[k] = b0; l[k+1] = b1; ...]. *)
Fixpoint writes (k : nat) (bs : list Z) (l : list Z) : list Z :=
  match bs with
  | [] => l
  | c :: bs' => writes (S k) bs' (<[k := c]> l)
  end.

Lemma length_writes bs : ∀ k l, length (writes k bs l) = length l.
Proof.
  induction bs as [|c bs IH]; intros k l; simpl; [reflexivity|].
  rewrite IH, length_insert. reflexivity.
Qed.

Lemma take_writes bs : ∀ k (l : list Z),
  k + length bs ≤ length l →
  take (k + length bs) (writes k bs l) = take k l ++ bs.
Proof.
  induction bs as [|c bs IH]; intros k l Hk; simpl in *.
  - rewrite Nat.add_0_r, app_nil_r. reflexivity.
  - replace (k + S (length bs)) with (S k + length bs) by lia.
    rewrite IH by (rewrite length_insert; lia).
    rewrite (take_insert_snoc l (take k l) k c) by (lia || reflexivity).
    rewrite <- app_assoc. reflexivity.
Qed.

Lemma wf_static_local env s : wf_static (local_writer env s).
Proof.
  unfold wf_static, local_writer, string_writer_init, frame. simpl.
  rewrite length_resize. repeat split. unfold STATIC_BUF_SIZE. lia.
Qed.

Lemma appended_refl w : wf_static w → appended w [] w.
Proof.
  intros Hw. unfold appended. rewrite app_nil_r. simpl.
  repeat split; try apply Hw; lia.
Qed.

Lemma appended_trans w1 w2 w3 bs1 bs2 :
  appended w1 bs1 w2 → appended w2 bs2 w3 → appended w1 (bs1 ++ bs2) w3.
Proof.
  intros (_ & Hs1 & Hn1 & Hb1) (Hw3 & Hs2 & Hn2 & Hb2).
  unfold appended. rewrite length_app, Hs2, Hs1, Hn2, Hn1, Hb2, Hb1, app_assoc.
  repeat split; [apply Hw3 .. | lia].
Qed.

Section inline.
Variable H : heap_oracle.

Lemma ensure_inline w bytes :
  wf_static w → sw_n w + bytes ≤ STATIC_BUF_SIZE →
  string_writer_ensure H w bytes = Ok w.
Proof.
  intros (_ & Ha & _) Hroom. unfold string_writer_ensure.
  rewrite Ha. destruct (Nat.leb_spec (sw_n w + bytes) STATIC_BUF_SIZE); [reflexivity | lia].
Qed.

Lemma store_inline w i c :
  wf_static w → i < STATIC_BUF_SIZE →
  store w i c = Ok (set_static_buf w (<[i := to_uchar c]> (sw_static_buf w))).
Proof.
  intros (Hb & _ & Hl & _) Hi. unfold store. rewrite Hb, Hl.
  rewrite bool_decide_eq_true_2 by reflexivity.
  destruct (Nat.ltb_spec i STATIC_BUF_SIZE); [reflexivity | lia].
Qed.

Lemma wf_static_store w i c :
  wf_static w → wf_static (set_static_buf w (<[i := c]> (sw_static_buf w))).
Proof.
  intros (Hb & Ha & Hl & Hn). unfold wf_static. simpl.
  rewrite length_insert. auto.
Qed.

(** After the bytes [bs] have been stored at [sw_n w ..], advancing [n]
    by their number appends them. *)
Lemma appended_set_n w l bs m :
  wf_static w → length l = STATIC_BUF_SIZE →
  m = sw_n w + length bs → m ≤ STATIC_BUF_SIZE →
  take m l = take (sw_n w) (sw_static_buf w) ++ bs →
  appended w bs (mk_writer (self w) (sw_buf w) m (sw_allocated w) l).
Proof.
  intros (Hb & Ha & Hl & Hn) Hlen Hm Hroom Htake.
  unfold appended, wf_static, writer_bytes. simpl. rewrite Hb.
  repeat split; auto.
Qed.

Lemma store_then w i c (k : string_writer_t → status) :
  wf_static w → i < STATIC_BUF_SIZE →
  TRY (store w i c) k
  = k (mk_writer (self w) (sw_buf w) (sw_n w) (sw_allocated w)
         (<[i := to_uchar c]> (sw_static_buf w))).
Proof. intros Hw Hi. rewrite store_inline by assumption. reflexivity. Qed.

Lemma wf_static_with w l :
  wf_static w → length l = STATIC_BUF_SIZE →
  wf_static (mk_writer (self w) (sw_buf w) (sw_n w) (sw_allocated w) l).
Proof. intros (Hb & Ha & Hl & Hn) Hlen. unfold wf_static. simpl. auto. Qed.

Local Ltac store_steps w Hw :=
  repeat (rewrite store_then;
          [ cbn [sw_n self sw_buf sw_allocated sw_static_buf]
          | first [ exact Hw
                  | apply (wf_static_with w);
                    [exact Hw | rewrite ?length_insert; apply Hw] ]
          | cbn [sw_n]; unfold STATIC_BUF_SIZE in *; lia ]);
  unfold set_n; cbn [sw_n self sw_buf sw_allocated sw_static_buf].

Lemma put_char_inline w c :
  wf_static w → sw_n w + 1 ≤ STATIC_BUF_SIZE →
  ∃ w', string_writer_put_char H w c = Ok w' ∧ appended w [to_uchar c] w'.
Proof.
  intros Hw Hroom. unfold string_writer_put_char.
  rewrite ensure_inline by assumption. cbn [TRY]. store_steps w Hw.
  eexists. split; [reflexivity|].
  apply (appended_set_n w _ [to_uchar c]); [assumption | | reflexivity | assumption |].
  - rewrite length_insert. apply Hw.
  - simpl. rewrite Nat.add_1_r. rewrite to_uchar_idemp.
    apply take_insert_snoc; [destruct Hw as (_ & _ & -> & _); lia | reflexivity].
Qed.

Local Ltac succ3 w :=
  replace (sw_n w + 3) with (S (S (S (sw_n w)))) by lia;
  replace (sw_n w + 2) with (S (S (sw_n w))) by lia;
  replace (sw_n w + 1) with (S (sw_n w)) by lia.

Local Ltac succ7 w :=
  replace (sw_n w + 7) with (S (S (S (S (S (S (S (sw_n w)))))))) by lia;
  replace (sw_n w + 6) with (S (S (S (S (S (S (sw_n w))))))) by lia;
  replace (sw_n w + 5) with (S (S (S (S (S (sw_n w)))))) by lia;
  replace (sw_n w + 4) with (S (S (S (S (sw_n w))))) by lia;
  succ3 w.

Lemma put_int32_inline w v :
  wf_static w → sw_n w + 4 ≤ STATIC_BUF_SIZE →
  ∃ w', string_writer_put_int32 H w v = Ok w' ∧ appended w (le32 (to_uint v)) w'.
Proof.
  intros Hw Hroom. unfold string_writer_put_int32.
  rewrite ensure_inline by assumption.
  cbn [TRY]. store_steps w Hw. rewrite !to_uchar_land.
  eexists. split; [reflexivity|].
  apply (appended_set_n w _ (le32 (to_uint v)));
    [assumption | | reflexivity | assumption |].
  - rewrite !length_insert. apply Hw.
  - rewrite <- (take_writes (le32 (to_uint v)))
      by (destruct Hw as (_ & _ & -> & _); exact Hroom).
    succ3 w. reflexivity.
Qed.

(** [v] as an 8-byte little-endian integer. *)
Definition le64 (v : Z) : list Z :=
  [Z.land v 255; Z.land (Z.shiftr v 8) 255;
   Z.land (Z.shiftr v 16) 255; Z.land (Z.shiftr v 24) 255;
   Z.land (Z.shiftr v 32) 255; Z.land (Z.shiftr v 40) 255;
   Z.land (Z.shiftr v 48) 255; Z.land (Z.shiftr v 56) 255].

Lemma put_intp_inline w v :
  wf_static w → sw_n w + 8 ≤ STATIC_BUF_SIZE →
  ∃ w', string_writer_put_intp H w v = Ok w' ∧ appended w (le64 v) w'.
Proof.
  intros Hw Hroom. unfold string_writer_put_intp.
  rewrite ensure_inline by assumption.
  cbn [TRY SIZEOF_NPY_INTP Nat.ltb Nat.leb]. store_steps w Hw. rewrite !to_uchar_land.
  eexists. split; [reflexivity|].
  apply (appended_set_n w _ (le64 v));
    [assumption | | reflexivity | assumption |].
  - rewrite !length_insert. apply Hw.
  - rewrite <- (take_writes (le64 v))
      by (destruct Hw as (_ & _ & -> & _); exact Hroom).
    cbn [length]. succ7 w. reflexivity.
Qed.

Lemma store_bytes_inline bs : ∀ w i,
  wf_static w → i + length bs ≤ STATIC_BUF_SIZE →
  store_bytes w i bs
  = Ok (set_static_buf w (writes i (to_uchar <$> bs) (sw_static_buf w))).
Proof.
  induction bs as [|c bs IH]; intros w i Hw Hi; simpl in *.
  - destruct w; reflexivity.
  - rewrite store_inline by (assumption || lia). cbn [TRY].
    rewrite IH by (try apply wf_static_store; assumption || lia).
    reflexivity.
Qed.

Lemma put_string_inline w (s : option (list Z)) :
  wf_static w → sw_n w + (length (default [] s) + 1) ≤ STATIC_BUF_SIZE →
  ∃ w', string_writer_put_string H w s = Ok w'
        ∧ appended w (to_uchar <$> (default [] s ++ [0%Z])) w'.
Proof.
  intros Hw Hroom. destruct s as [s|]; simpl in *.
  - unfold string_writer_put_string.
    rewrite ensure_inline by assumption. cbn [TRY].
    rewrite store_bytes_inline by (rewrite ?length_app; simpl; assumption).
    cbn [TRY]. unfold set_n, set_static_buf.
    cbn [sw_n self sw_buf sw_allocated sw_static_buf].
    eexists. split; [reflexivity|].
    assert (Hlen : length (to_uchar <$> s ++ [0%Z]) = length s + 1)
      by (rewrite length_fmap, length_app; reflexivity).
    apply appended_set_n; [assumption | | lia | assumption |].
    + rewrite length_writes. apply Hw.
    + rewrite <- Hlen. apply take_writes. destruct Hw as (_ & _ & -> & _). lia.
  - apply (put_char_inline w 0). assumption. exact Hroom.
Qed.

(** The bytes [compute_dtype_fingerprint] hands to the writer; [None]
    when it does not recognize the dtype (or the dtype is a temporal one
    without metadata). *)
Definition dtype_bytes (d : PyArray_Descr) : option (list Z) :=
  let t := type_num d in
  if (t <? NPY_OBJECT)%Z then Some [to_uchar (to_char t)]
  else if (t =? NPY_VOID)%Z then Some (to_uchar (to_char t) :: le64 (descr_addr d))
  else if PyTypeNum_ISDATETIME t then
    md ← c_metadata d;
    Some ([to_uchar (to_char t); to_uchar (to_char (md_base md))]
          ++ le32 (to_uint (to_char (md_num md))))
  else None.

(** A temporal dtype carries its metadata. *)
Definition descr_ok (d : PyArray_Descr) : Prop :=
  PyTypeNum_ISDATETIME (type_num d) = true → is_Some (c_metadata d).

Lemma dtype_bytes_length d bs : dtype_bytes d = Some bs → length bs ≤ 9.
Proof.
  unfold dtype_bytes. intros E.
  destruct (type_num d <? NPY_OBJECT)%Z; [inversion E; simpl; lia|].
  destruct (type_num d =? NPY_VOID)%Z; [inversion E; simpl; lia|].
  destruct (PyTypeNum_ISDATETIME (type_num d)); [|discriminate].
  destruct (c_metadata d); inversion E; simpl; lia.
Qed.

Local Ltac step lem Hw w' A :=
  let E := fresh "E" in
  destruct lem as (w' & E & A);
  [ exact Hw | unfold STATIC_BUF_SIZE in *; simpl in *; lia | ];
  rewrite E; cbn [TRY]; clear E.

Lemma dtype_inline w d bs :
  dtype_bytes d = Some bs → wf_static w → sw_n w + length bs ≤ STATIC_BUF_SIZE →
  ∃ w', compute_dtype_fingerprint H w d = Ok w' ∧ appended w bs w'.
Proof.
  unfold dtype_bytes, compute_dtype_fingerprint. intros E Hw Hroom.
  destruct (type_num d <? NPY_OBJECT)%Z.
  { inversion E; subst bs. apply put_char_inline; assumption. }
  destruct (type_num d =? NPY_VOID)%Z.
  { inversion E; subst bs; clear E.
    step (put_char_inline w (to_char (type_num d))) Hw w1 A1.
    pose proof A1 as (Hw1 & _ & Hn1 & _).
    step (put_intp_inline w1 (descr_addr d)) Hw1 w2 A2.
    eexists. split; [reflexivity|].
    apply (appended_trans _ _ _ [_] _ A1 A2). }
  destruct (PyTypeNum_ISDATETIME (type_num d)); [|discriminate].
  destruct (c_metadata d) as [md|]; [|discriminate].
  inversion E; subst bs; clear E.
  step (put_char_inline w (to_char (type_num d))) Hw w1 A1.
  pose proof A1 as (Hw1 & _ & Hn1 & _).
  step (put_char_inline w1 (to_char (md_base md))) Hw1 w2 A2.
  pose proof A2 as (Hw2 & _ & Hn2 & _).
  step (put_int32_inline w2 (to_char (md_num md))) Hw2 w3 A3.
  eexists. split; [reflexivity|].
  apply (appended_trans _ _ _ [_; _] _ (appended_trans _ _ _ [_] [_] A1 A2) A3).
Qed.

Lemma dtype_unrecognized w d :
  dtype_bytes d = None → descr_ok d →
  compute_dtype_fingerprint H w d = Raise NotImplementedError w.
Proof.
  unfold dtype_bytes, compute_dtype_fingerprint, descr_ok. intros E Hd.
  destruct (type_num d <? NPY_OBJECT)%Z; [discriminate|].
  destruct (type_num d =? NPY_VOID)%Z; [discriminate|].
  destruct (PyTypeNum_ISDATETIME (type_num d)); [|reflexivity].
  destruct (Hd eq_refl) as [md Hmd]. rewrite Hmd in E. discriminate.
Qed.

(** The bytes the array branch writes before the dtype. *)
Definition array_header (a : PyArrayObject) : list Z :=
  [OP_NP_ARRAY] ++ le32 (to_uint (PyArray_NDIM a))
  ++ [array_layout_char a; if PyArray_ISWRITEABLE a then CH_W else CH_R].

Lemma array_layout_char_uchar a : to_uchar (array_layout_char a) = array_layout_char a.
Proof.
  unfold array_layout_char.
  destruct (PyArray_IS_C_CONTIGUOUS a), (PyArray_IS_F_CONTIGUOUS a); reflexivity.
Qed.

Lemma array_header_inline w a :
  wf_static w → sw_n w + 7 ≤ STATIC_BUF_SIZE →
  ∃ w', appended w (array_header a) w'
    ∧ ∀ k : string_writer_t → status,
        (try! w ← string_writer_put_char H w OP_NP_ARRAY;
         try! w ← string_writer_put_int32 H w (PyArray_NDIM a);
         try! w ← string_writer_put_char H w (array_layout_char a);
         try! w ← (if PyArray_ISWRITEABLE a
                   then string_writer_put_char H w CH_W
                   else string_writer_put_char H w CH_R);
         k w) = k w'.
Proof.
  intros Hw Hroom.
  destruct (put_char_inline w OP_NP_ARRAY Hw) as (w1 & E1 & A1);
    [unfold STATIC_BUF_SIZE in *; lia|].
  pose proof A1 as (Hw1 & _ & Hn1 & _).
  destruct (put_int32_inline w1 (PyArray_NDIM a) Hw1) as (w2 & E2 & A2);
    [unfold STATIC_BUF_SIZE in *; simpl in *; lia|].
  pose proof A2 as (Hw2 & _ & Hn2 & _).
  destruct (put_char_inline w2 (array_layout_char a) Hw2) as (w3 & E3 & A3);
    [unfold STATIC_BUF_SIZE in *; simpl in *; lia|].
  pose proof A3 as (Hw3 & _ & Hn3 & _).
  rewrite array_layout_char_uchar in A3.
  pose proof (appended_trans _ _ _ _ _ (appended_trans _ _ _ _ _ A1 A2) A3) as A123.
  destruct (put_char_inline w3 (if PyArray_ISWRITEABLE a then CH_W else CH_R) Hw3)
    as (w4 & E4 & A4); [unfold STATIC_BUF_SIZE in *; simpl in *; lia|].
  exists w4. split.
  - pose proof (appended_trans _ _ _ _ _ A123 A4) as A.
    rewrite <- !app_assoc in A. unfold array_header.
    destruct (PyArray_ISWRITEABLE a); exact A.
  - intros k. rewrite E1. cbn [TRY]. rewrite E2. cbn [TRY]. rewrite E3. cbn [TRY].
    destruct (PyArray_ISWRITEABLE a); rewrite E4; reflexivity.
Qed.

Lemma array_inline w a bs :
  dtype_bytes (descr a) = Some bs → wf_static w →
  sw_n w + 7 + length bs ≤ STATIC_BUF_SIZE →
  ∃ w', compute_fingerprint H w (NpArray a) = Ok w'
        ∧ appended w (array_header a ++ bs) w'.
Proof.
  intros Hd Hw Hroom.
  destruct (array_header_inline w a Hw) as (w4 & A & Hk); [lia|].
  pose proof A as (Hw4 & _ & Hn4 & _).
  destruct (dtype_inline w4 (descr a) bs Hd Hw4) as (w5 & E5 & A5).
  { rewrite Hn4. unfold array_header. simpl. simpl in Hroom. lia. }
  exists w5. split; [|exact (appended_trans _ _ _ _ _ A A5)].
  cbn [compute_fingerprint Py_IsNone PyBool_Check PyInt_Check PyLong_Check
       PyFloat_Check PyComplex_CheckExact PyBytes_Check PyByteArray_Check orb].
  rewrite (Hk (λ w, compute_dtype_fingerprint H w (PyArray_DESCR a))).
  exact E5.
Qed.

Lemma array_unrecognized w a :
  dtype_bytes (descr a) = None → descr_ok (descr a) → wf_static w →
  sw_n w + 7 ≤ STATIC_BUF_SIZE →
  ∃ w', compute_fingerprint H w (NpArray a) = Raise NotImplementedError w'.
Proof.
  intros Hd Hok Hw Hroom.
  destruct (array_header_inline w a Hw Hroom) as (w4 & A & Hk).
  exists w4.
  cbn [compute_fingerprint Py_IsNone PyBool_Check PyInt_Check PyLong_Check
       PyFloat_Check PyComplex_CheckExact PyBytes_Check PyByteArray_Check orb].
  rewrite (Hk (λ w, compute_dtype_fingerprint H w (PyArray_DESCR a))).
  apply dtype_unrecognized; assumption.
Qed.

(** The array branch never faults on an inline writer with room for 16
    bytes: it returns 0 or reports an unrecognized dtype. *)
Lemma array_encodes_or_unrecognized w a :
  descr_ok (descr a) → wf_static w → sw_n w + 16 ≤ STATIC_BUF_SIZE →
  (∃ w', compute_fingerprint H w (NpArray a) = Ok w' ∧ wf_static w')
  ∨ (∃ w', compute_fingerprint H w (NpArray a) = Raise NotImplementedError w').
Proof.
  intros Hok Hw Hroom.
  destruct (dtype_bytes (descr a)) as [bs|] eqn:Hd.
  - left. pose proof (dtype_bytes_length _ _ Hd).
    destruct (array_inline w a bs Hd Hw) as (w' & E & A); [lia|].
    exists w'. split; [exact E | apply A].
  - right. apply array_unrecognized; try assumption. lia.
Qed.
End inline.

(** * Lemmas on the two caches *)

(** The element kinds the lookup table covers: the twelve cases of the
    switch of [dtype_num_to_typecode]. *)
Definition is_elementary_kind (t : Z) : bool :=
  (t =? NPY_INT8)%Z || (t =? NPY_INT16)%Z || (t =? NPY_INT32)%Z || (t =? NPY_INT64)%Z
  || (t =? NPY_UINT8)%Z || (t =? NPY_UINT16)%Z || (t =? NPY_UINT32)%Z
  || (t =? NPY_UINT64)%Z || (t =? NPY_FLOAT32)%Z || (t =? NPY_FLOAT64)%Z
  || (t =? NPY_COMPLEX64)%Z || (t =? NPY_COMPLEX128)%Z.

(** Rank in [1, 5] and an elementary element kind. *)
Definition fast_path_applicable (a : PyArrayObject) : bool :=
  (1 <=? PyArray_NDIM a)%Z && (PyArray_NDIM a <=? 5)%Z
  && is_elementary_kind (PyArray_TYPE a).

(** Every typecode stored in the fingerprint hash table is valid. *)
Definition table_valid (s : world) : Prop :=
  Forall (λ e, (0 ≤ data e)%Z) (default [] (fingerprint_hashtable s)).

(** No allocation of the call fails. *)
Definition allocations_succeed (env : call_env) (s : world) : Prop :=
  (is_Some (fingerprint_hashtable s) ∨ hashtable_new_fails env = false)
  ∧ is_Some (key_malloc env)
  ∧ hashtable_set_fails env = false.

Lemma dtype_num_to_typecode_elementary t :
  (dtype_num_to_typecode t =? -1)%Z = negb (is_elementary_kind t).
Proof.
  unfold dtype_num_to_typecode, is_elementary_kind.
  repeat (match goal with |- context [(t =? ?c)%Z] => destruct (t =? c)%Z end;
          [reflexivity|]).
  reflexivity.
Qed.

Lemma dtype_num_to_typecode_range t :
  is_elementary_kind t = true →
  (0 ≤ dtype_num_to_typecode t < N_DTYPES)%Z ∧ (t < NPY_OBJECT)%Z.
Proof.
  unfold dtype_num_to_typecode, is_elementary_kind, N_DTYPES.
  repeat (match goal with |- context [(t =? ?c)%Z] => destruct (Z.eqb_spec t c) end;
          [subst t; cbv; intros _; repeat split; congruence|]).
  discriminate.
Qed.

Lemma ndarray_layout_range a : (0 ≤ ndarray_layout a < N_LAYOUT)%Z.
Proof.
  unfold ndarray_layout, N_LAYOUT.
  destruct (PyArray_ISCARRAY a), (PyArray_ISFARRAY a); lia.
Qed.

(** The index [typecode_ndarray] computes is inside [cached_arycode]. *)
Lemma arycode_index_in_bounds a :
  fast_path_applicable a = true →
  arycode_index (PyArray_NDIM a - 1) (ndarray_layout a)
                (dtype_num_to_typecode (PyArray_TYPE a))
  < Z.to_nat (N_NDIM * N_LAYOUT * N_DTYPES).
Proof.
  unfold fast_path_applicable. intros Ha.
  apply andb_prop in Ha as [Hr Hk]. apply andb_prop in Hr as [H1 H5].
  apply Z.leb_le in H1, H5.
  destruct (dtype_num_to_typecode_range _ Hk) as [Hd _].
  pose proof (ndarray_layout_range a) as Hl.
  unfold arycode_index, N_NDIM, N_LAYOUT, N_DTYPES in *. lia.
Qed.

(** The guards of [typecode_ndarray] are the applicability test. *)
Lemma typecode_ndarray_guards a :
  ((PyArray_NDIM a <=? 0)%Z || (N_NDIM <? PyArray_NDIM a)%Z
   || (dtype_num_to_typecode (PyArray_TYPE a) =? -1)%Z)
  = negb (fast_path_applicable a).
Proof.
  unfold fast_path_applicable, N_NDIM. rewrite dtype_num_to_typecode_elementary.
  destruct (Z.leb_spec (PyArray_NDIM a) 0), (Z.ltb_spec 5 (PyArray_NDIM a)),
    (Z.leb_spec 1 (PyArray_NDIM a)), (Z.leb_spec (PyArray_NDIM a) 5);
    try lia; destruct (is_elementary_kind _); reflexivity.
Qed.

Lemma typecode_ndarray_fallthrough d env a s :
  fast_path_applicable a = false →
  typecode_ndarray d env a s = typecode_using_fingerprint d env (NpArray a) s.
Proof.
  intros Ha. pose proof (typecode_ndarray_guards a) as G. rewrite Ha in G.
  unfold typecode_ndarray.
  destruct ((PyArray_NDIM a <=? 0)%Z || (N_NDIM <? PyArray_NDIM a)%Z); [reflexivity|].
  simpl in G. rewrite G. reflexivity.
Qed.

Lemma typecode_ndarray_fast d env a s :
  fast_path_applicable a = true →
  typecode_ndarray d env a s
  = match cached_arycode s !! arycode_index (PyArray_NDIM a - 1) (ndarray_layout a)
                                (dtype_num_to_typecode (PyArray_TYPE a)) with
    | None => None
    | Some typecode =>
        if (typecode =? -1)%Z then
          let '(typecode, s) := typecode_fallback_keep_ref d (NpArray a) s in
          Some (typecode,
                set_arycode s
                  (<[arycode_index (PyArray_NDIM a - 1) (ndarray_layout a)
                       (dtype_num_to_typecode (PyArray_TYPE a)) := typecode]>
                     (cached_arycode s)))
        else Some (typecode, s)
    end.
Proof.
  intros Ha. pose proof (typecode_ndarray_guards a) as G. rewrite Ha in G.
  apply orb_false_iff in G as [G1 G2].
  unfold typecode_ndarray. rewrite G1, G2. reflexivity.
Qed.

(** What [typecode_using_fingerprint] does when the encoder does not
    recognize the value. *)
Lemma typecode_using_fingerprint_unrecognized d env val s w' :
  is_Some (fingerprint_hashtable s) ∨ hashtable_new_fails env = false →
  compute_fingerprint (heap env) (local_writer env s) val = Raise NotImplementedError w' →
  typecode_using_fingerprint d env val s
  = Some (typecode_fallback d val
            (set_err
               (set_stack (set_hashtable s (Some (default [] (fingerprint_hashtable s))))
                          (<[sp env := sw_static_buf w']> (stack s)))
               None)).
Proof.
  intros Hc E. unfold typecode_using_fingerprint.
  destruct (fingerprint_hashtable s) as [ht|] eqn:Hht.
  - change (local_writer env (set_hashtable s (Some ht))) with (local_writer env s).
    rewrite E. reflexivity.
  - destruct Hc as [[? Hc]|Hc]; [discriminate|]. rewrite Hc.
    change (local_writer env (set_hashtable s (Some []))) with (local_writer env s).
    rewrite E. reflexivity.
Qed.

(** * Properties *)

(** ** Booleans and integers *)

(** C10: a boolean passes the integer check, yet for every boolean the
    encoder writes the boolean tag and nothing else, because the boolean
    check comes first; integers get the integer tag, and the two
    fingerprints differ. *)
Theorem C10_bool_checked_before_int (H : heap_oracle) (b : bool) (z : Z)
  (w : string_writer_t) :
  PyInt_Check (PyBool b) = true
  ∧ compute_fingerprint H w (PyBool b) = string_writer_put_char H w OP_BOOL
  ∧ typeof_compute_fingerprint H (PyBool b) = FpBytes [OP_BOOL]
  ∧ typeof_compute_fingerprint H (PyInt z) = FpBytes [OP_INT]
  ∧ typeof_compute_fingerprint H (PyLong z) = FpBytes [OP_INT]
  ∧ typeof_compute_fingerprint H (PyBool b) ≠ typeof_compute_fingerprint H (PyInt z)
  ∧ typeof_compute_fingerprint H (PyBool b) ≠ typeof_compute_fingerprint H (PyLong z).
Proof.
  repeat split; try reflexivity; discriminate.
Qed.

(** ** Temporal dtypes *)

(** C4 (fails on the code): for the unit 7 and the multiplier 300 the
    encoder writes the four bytes of [(char) 300 = 44], not those of 300. *)
Theorem C4_multiplier_truncated_to_char (H : heap_oracle) :
  typeof_compute_fingerprint H (NpDescr (datetime_descr 7 300))
  = FpBytes ([OP_NP_DTYPE; NPY_DATETIME; 7%Z] ++ le32 44)
  ∧ typeof_compute_fingerprint H (NpDescr (datetime_descr 7 300))
    ≠ FpBytes ([OP_NP_DTYPE; NPY_DATETIME; 7%Z] ++ le32 300).
Proof.
  split; [reflexivity | discriminate].
Qed.

(** ** Fingerprints longer than the inline buffer *)

(** C1 (fails on the code): two tuples of 39 integers have the same type
    shape, but their fingerprints are the 40 bytes the allocator happened
    to return followed by the end marker, so they differ when the fresh
    memory differs. *)
Theorem C1_grown_fingerprint_is_heap_garbage :
  typeof_compute_fingerprint heap_zero (tuple39 1)
  = FpBytes (replicate 40 0%Z ++ [OP_END_TUPLE])
  ∧ typeof_compute_fingerprint heap_ff (tuple39 2)
    = FpBytes (replicate 40 255%Z ++ [OP_END_TUPLE])
  ∧ typeof_compute_fingerprint heap_zero (tuple39 1)
    ≠ typeof_compute_fingerprint heap_ff (tuple39 2).
Proof.
  split; [vm_compute; reflexivity|].
  split; [vm_compute; reflexivity|].
  vm_compute. discriminate.
Qed.

(** C8 (fails on the code): the fingerprint of a tuple of 39 integers is
    not the start marker, the 39 integer tags and the end marker: the
    start marker and the tags are lost when the writer leaves its inline
    buffer. *)
Theorem C8_long_tuple_loses_markers :
  typeof_compute_fingerprint heap_zero (tuple39 1)
  ≠ FpBytes ([OP_START_TUPLE] ++ replicate 39 OP_INT ++ [OP_END_TUPLE])
  ∧ ∃ rest, typeof_compute_fingerprint heap_zero (tuple39 1) = FpBytes (0%Z :: rest).
Proof.
  split.
  - vm_compute. discriminate.
  - eexists. vm_compute. reflexivity.
Qed.

(** ** The fingerprint cache and its keys *)

(** C2 (fails on the code): [None] is classified at stack address 0, then
    an integer at the same address, then [None] again from a call whose
    frame is elsewhere.  The fingerprint of [None] is one byte and fits the
    inline buffer; the third call misses and the resolver is asked for
    [None] a second time. *)
Theorem C2_inline_fingerprint_resolved_twice :
  typeof_compute_fingerprint heap_zero PyNone = FpBytes [OP_NONE]
  ∧ run_calls (typeof_typecode disp_kind)
      [(env_at 0, PyNone); (env_at 0, PyInt 5); (env_at 64, PyNone)] typeof_init
    = Some ([7%Z; 8%Z; 7%Z],
            state_after (typeof_typecode disp_kind)
              [(env_at 0, PyNone); (env_at 0, PyInt 5); (env_at 64, PyNone)] typeof_init)
  ∧ count_calls Py_IsNone
      (resolver_log (state_after (typeof_typecode disp_kind)
         [(env_at 0, PyNone); (env_at 0, PyInt 5); (env_at 64, PyNone)] typeof_init))
    = 2.
Proof.
  repeat split; vm_compute; reflexivity.
Qed.

(** C5 (fails on the code): after [None] has been resolved by a call
    located at stack address 0, the key in the table is a struct at another
    address whose [buf] still points to the [static_buf] of that call.
    While the dead frame keeps its bytes a writer holding the same
    fingerprint compares equal; once another call has used the frame the
    same writer, holding the same bytes, compares different. *)
Theorem C5_key_points_into_returned_frame :
  let s1 := state_after (typeof_typecode disp_kind) [(env_at 0, PyNone)] typeof_init in
  let s2 := state_after (typeof_typecode disp_kind) [(env_at 0, PyInt 5)] s1 in
  let v := none_writer 64 in
  ∃ e, fingerprint_hashtable s1 = Some [e]
    ∧ data e = 7%Z
    ∧ sw_buf (key e) = PtrStaticBuf (sp (env_at 0))
    ∧ self (key e) ≠ sp (env_at 0)
    ∧ read_bytes (<[64%Z := sw_static_buf v]> (stack s1)) v = [OP_NONE]
    ∧ compare_writer (<[64%Z := sw_static_buf v]> (stack s1)) v e = true
    ∧ read_bytes (<[64%Z := sw_static_buf v]> (stack s2)) v = [OP_NONE]
    ∧ compare_writer (<[64%Z := sw_static_buf v]> (stack s2)) v e = false.
Proof.
  eexists. split; [vm_compute; reflexivity|].
  repeat split; try (vm_compute; reflexivity).
  vm_compute. discriminate.
Qed.

(** ** The direct lookup table *)

(** C3 (fails on the code): for a C-contiguous read-only array the encoder
    records layout [C], the lookup table uses layout index 0, the index of
    arrays that are not contiguous.  Once such an array has filled the
    slot, a non-contiguous array gets its typecode from the table, while
    the fingerprint cache keeps the two apart. *)
Theorem C3_table_layout_differs_from_encoder :
  array_layout_char ary_c_readonly = CH_C
  ∧ ndarray_layout ary_c_readonly = 0%Z
  ∧ array_layout_char ary_strided = CH_A
  ∧ ndarray_layout ary_strided = 0%Z
  ∧ fst <$> run_calls (typeof_typecode disp_kind)
      [(env_at 0, NpArray ary_c_readonly); (env_at 0, NpArray ary_strided)] typeof_init
    = Some [1167%Z; 1167%Z]
  ∧ fst <$> run_calls (typecode_using_fingerprint disp_kind)
      [(env_at 0, NpArray ary_c_readonly); (env_at 0, NpArray ary_strided)] typeof_init
    = Some [1167%Z; 165%Z].
Proof.
  repeat split; vm_compute; reflexivity.
Qed.

(** C7 (fails on the code): when the resolver answers [-2] for a rank-1
    C-contiguous float64 array, the table slot goes from [-1] to [-2]; the
    next call returns [-2] from the table and the resolver, which would now
    answer 167, is not asked again.  The fingerprint hash table stays
    as it was. *)
Theorem C7_invalid_typecode_fills_slot :
  let s1 := state_after (typeof_typecode disp_invalid) [(env_at 0, NpArray ary_c)]
              typeof_init in
  typeof_typecode disp_invalid (env_at 0) (NpArray ary_c) typeof_init = Some ((-2)%Z, s1)
  ∧ cached_arycode typeof_init !! arycode_index 0 1 9 = Some (-1)%Z
  ∧ cached_arycode s1 !! arycode_index 0 1 9 = Some (-2)%Z
  ∧ fingerprint_hashtable s1 = fingerprint_hashtable typeof_init
  ∧ typeof_pyval disp_kind (NpArray ary_c) = Some (Some 167%Z)
  ∧ typeof_typecode disp_kind (env_at 0) (NpArray ary_c) s1 = Some ((-2)%Z, s1).
Proof.
  repeat split; vm_compute; reflexivity.
Qed.

(** ** Values the encoder does not recognize *)

(** C6: when the encoder reports the value as unrecognized, the entry point
    clears that error and returns what the resolver answers, asked once and
    without keeping a reference; nothing is inserted in the fingerprint hash
    table and the lookup table is untouched.  The error indicator afterwards
    is the resolver's: empty when the resolver produced a code. *)
Theorem C6_unrecognized_falls_back_uncached (d : dispatcher) (env : call_env)
  (val : PyObject) (s : world) (w' : string_writer_t) :
  is_Some (fingerprint_hashtable s) ∨ hashtable_new_fails env = false →
  compute_fingerprint (heap env) (local_writer env s) val = Raise NotImplementedError w' →
  ∃ t s',
    typeof_typecode d env val s = Some (t, s')
    ∧ t = match typeof_pyval d val with Some (Some c) => to_int c | _ => (-1)%Z end
    ∧ resolver_log s' = (val, false) :: resolver_log s
    ∧ fingerprint_hashtable s' = Some (default [] (fingerprint_hashtable s))
    ∧ cached_arycode s' = cached_arycode s
    ∧ err s' = match typeof_pyval d val with
               | Some (Some _) => None
               | _ => Some ResolverError
               end.
Proof.
  intros Hc E.
  assert (Hfp : typeof_typecode d env val s = typecode_using_fingerprint d env val s).
  { destruct val as [| | | | | | | | | |a| | |]; try reflexivity.
    simpl. destruct (fast_path_applicable a) eqn:Ha.
    - exfalso.
      apply andb_prop in Ha as [_ Hk].
      destruct (dtype_num_to_typecode_range _ Hk) as [_ Hlt].
      assert (Hd : dtype_bytes (descr a) = Some [to_uchar (to_char (type_num (descr a)))]).
      { unfold dtype_bytes. apply Z.ltb_lt in Hlt. unfold PyArray_TYPE in Hlt.
        rewrite Hlt. reflexivity. }
      destruct (array_inline (heap env) (local_writer env s) a _ Hd (wf_static_local env s))
        as (w1 & E1 & _); [vm_compute; lia|].
      rewrite E1 in E. discriminate.
    - apply typecode_ndarray_fallthrough. exact Ha. }
  rewrite Hfp, (typecode_using_fingerprint_unrecognized d env val s w' Hc E).
  unfold typecode_fallback, _typecode_fallback.
  destruct (typeof_pyval d val) as [[c|]|]; eexists _, _; repeat split.
Qed.

Lemma C6_unrecognized_falls_back_uncached_witness :
  ∃ t s',
    typeof_typecode disp_kind (env_at 0) (PyOpaque 5) typeof_init = Some (t, s')
    ∧ t = 9%Z
    ∧ resolver_log s' = [(PyOpaque 5, false)]
    ∧ fingerprint_hashtable s' = Some []
    ∧ cached_arycode s' = cached_arycode typeof_init
    ∧ err s' = None.
Proof.
  exact (C6_unrecognized_falls_back_uncached disp_kind (env_at 0) (PyOpaque 5) typeof_init
           (local_writer (env_at 0) typeof_init) (or_intror eq_refl) eq_refl).
Defined.

(** ** Scope of the direct lookup table *)

(** C9: the table is used exactly for ranks 1 to 5 with an elementary
    element kind: then the slot is inside the table and the result is read
    from it, or from the resolver when the slot holds [-1].  Any other array
    is handed, as the array itself, to the fingerprint path, which returns a
    valid typecode whenever the resolver gives one (no allocation failing,
    the table holding valid typecodes). *)
Theorem C9_table_scope_and_fallthrough (d : dispatcher) (env : call_env)
  (ary : PyArrayObject) (s : world) :
  (fast_path_applicable ary = true →
   length (cached_arycode s) = Z.to_nat (N_NDIM * N_LAYOUT * N_DTYPES) →
   ∃ v, cached_arycode s !! arycode_index (PyArray_NDIM ary - 1) (ndarray_layout ary)
                              (dtype_num_to_typecode (PyArray_TYPE ary)) = Some v
     ∧ typeof_typecode d env (NpArray ary) s
       = if (v =? -1)%Z then
           let '(t, s') := typecode_fallback_keep_ref d (NpArray ary) s in
           Some (t, set_arycode s'
                      (<[arycode_index (PyArray_NDIM ary - 1) (ndarray_layout ary)
                           (dtype_num_to_typecode (PyArray_TYPE ary)) := t]>
                         (cached_arycode s')))
         else Some (v, s))
  ∧ (fast_path_applicable ary = false →
     typeof_typecode d env (NpArray ary) s
     = typecode_using_fingerprint d env (NpArray ary) s
     ∧ (allocations_succeed env s → descr_ok (descr ary) → table_valid s →
        ∀ c, typeof_pyval d (NpArray ary) = Some (Some c) → (0 ≤ to_int c)%Z →
        ∃ t s', typeof_typecode d env (NpArray ary) s = Some (t, s') ∧ (0 ≤ t)%Z)).
Proof.
  split.
  - intros Ha Hlen.
    pose proof (arycode_index_in_bounds ary Ha) as Hidx. rewrite <- Hlen in Hidx.
    destruct (lookup_lt_is_Some_2 _ _ Hidx) as [v Hv].
    exists v. split; [exact Hv|].
    simpl. rewrite (typecode_ndarray_fast d env ary s Ha), Hv. reflexivity.
  - intros Ha.
    assert (Hfp : typeof_typecode d env (NpArray ary) s
                  = typecode_using_fingerprint d env (NpArray ary) s)
      by (apply typecode_ndarray_fallthrough; exact Ha).
    split; [exact Hfp|].
    intros (Hc & [ka Hka] & Hset) Hok Hvalid c Hres Hpos. rewrite Hfp.
    destruct (array_encodes_or_unrecognized (heap env) (local_writer env s) ary Hok
                (wf_static_local env s)) as [(w1 & E1 & _)|(w1 & E1)];
      [vm_compute; lia | |].
    + unfold typecode_using_fingerprint.
      assert (Hcreated :
        match fingerprint_hashtable s with
        | Some ht => Some ht
        | None => if hashtable_new_fails env then None else Some []
        end = Some (default [] (fingerprint_hashtable s))).
      { destruct (fingerprint_hashtable s); [reflexivity|].
        destruct Hc as [[? Hc]|Hc]; [discriminate | rewrite Hc; reflexivity]. }
      rewrite Hcreated.
      change (local_writer env (set_hashtable s _)) with (local_writer env s).
      rewrite E1. cbn zeta.
      destruct (_Py_HASHTABLE_GET _ _ w1) as [t|] eqn:Hget.
      * eexists _, _. split; [reflexivity|].
        unfold _Py_HASHTABLE_GET in Hget.
        destruct (find _ _) as [e|] eqn:Hfind; [|discriminate].
        simpl in Hget. injection Hget as <-.
        apply find_some in Hfind as [Hin _].
        unfold table_valid in Hvalid. rewrite Forall_forall in Hvalid.
        apply Hvalid. apply list_elem_of_In. exact Hin.
      * unfold typecode_fallback_keep_ref, _typecode_fallback. rewrite Hres.
        apply Z.leb_le in Hpos. rewrite Hpos, Hka, Hset.
        eexists _, _. split; [reflexivity|]. apply Z.leb_le. exact Hpos.
    + rewrite (typecode_using_fingerprint_unrecognized d env _ s w1 Hc E1).
      unfold typecode_fallback, _typecode_fallback. rewrite Hres.
      eexists _, _. split; [reflexivity | exact Hpos].
Qed.

Lemma C9_table_scope_and_fallthrough_witness :
  fast_path_applicable ary_rank8 = false
  ∧ ∃ t s', typeof_typecode disp_kind (env_at 0) (NpArray ary_rank8) typeof_init
            = Some (t, s') ∧ (0 ≤ t)%Z.
Proof.
  split; [reflexivity|].
  refine (proj2 (proj2 (C9_table_scope_and_fallthrough disp_kind (env_at 0) ary_rank8
                          typeof_init) eq_refl) _ _ _ 167%Z eq_refl _).
  - split; [right; reflexivity | split; [eexists; reflexivity | reflexivity]].
  - intros Hdt. discriminate Hdt.
  - apply Forall_nil_2.
  - vm_compute. discriminate.
Defined.

(** * Further properties of the writer *)

(** The integer a little-endian byte string denotes. *)
Fixpoint le_decode (bs : list Z) : Z :=
  match bs with
  | [] => 0%Z
  | b :: rest => (b + 256 * le_decode rest)%Z
  end.

Lemma land_255 z : Z.land z 255 = (z mod 256)%Z.
Proof. change 255%Z with (Z.ones 8). rewrite Z.land_ones by lia. reflexivity. Qed.

Lemma le32_decode v : le_decode (le32 v) = (v mod 2 ^ 32)%Z.
Proof.
  unfold le32, le_decode. rewrite !land_255, !Z.shiftr_div_pow2 by lia.
  change (2 ^ 32)%Z with (256 * (256 * (256 * 256)))%Z.
  rewrite !Z.rem_mul_r by lia.
  rewrite !Z.div_div by lia.
  rewrite Z.mul_0_r, Z.add_0_r. reflexivity.
Qed.

Lemma le64_decode v : le_decode (le64 v) = (v mod 2 ^ 64)%Z.
Proof.
  unfold le64, le_decode. rewrite !land_255, !Z.shiftr_div_pow2 by lia.
  change (2 ^ 64)%Z with (256 * (256 * (256 * (256 * (256 * (256 * (256 * 256)))))))%Z.
  rewrite !Z.rem_mul_r by lia.
  rewrite !Z.div_div by lia.
  rewrite Z.mul_0_r, Z.add_0_r. reflexivity.
Qed.

(** * The byte stream of a fingerprint *)

(** Induction on values, with the elements of a tuple as sub-values. *)
Lemma PyObject_nested_ind (P : PyObject → Prop) :
  P PyNone → (∀ b, P (PyBool b)) → (∀ z, P (PyInt z)) → (∀ z, P (PyLong z)) →
  P PyFloat → P PyComplex →
  (∀ items, Forall P items → P (PyTuple items)) →
  P PyBytes → P PyByteArray →
  (∀ d, P (NpScalar d)) → (∀ a, P (NpArray a)) → (∀ b, P (PyBufferObj b)) →
  (∀ d, P (NpDescr d)) → (∀ t, P (PyOpaque t)) →
  ∀ v, P v.
Proof.
  intros HNone HBool HInt HLong HFloat HComplex HTuple HBytes HByteArray
         HScalar HArray HBuffer HDescr HOpaque.
  fix IH 1.
  intros [|b|z|z| | |items| | |d|a|b|d|t];
    [ apply HNone | apply HBool | apply HInt | apply HLong | apply HFloat
    | apply HComplex | | apply HBytes | apply HByteArray | apply HScalar
    | apply HArray | apply HBuffer | apply HDescr | apply HOpaque ].
  apply HTuple. induction items as [|x xs IHxs]; constructor; [apply IH | exact IHxs].
Qed.

(** The view the buffer branch works on: the writable one, else the
    read-only one. *)
Definition buffer_view (b : buffer_object) : option Py_buffer :=
  match getbuffer_writable b with
  | Some v => Some v
  | None => getbuffer_readonly b
  end.

(** The bytes the buffer branch hands to the writer. *)
Definition buffer_bytes (b : buffer_object) : option (list Z) :=
  buf ← buffer_view b;
  Some ([OP_BUFFER] ++ le32 (to_uint (view_ndim buf))
        ++ [if view_c_contiguous buf then CH_C
            else if view_f_contiguous buf then CH_F else CH_A;
            if view_readonly buf then CH_R else CH_W]
        ++ (to_uchar <$> (default [] (view_format buf) ++ [0%Z]))
        ++ le64 (ob_type b)).

(** The bytes [compute_fingerprint] hands to the writer, in order, for a
    value it encodes; [None] when it gives up on the value. *)
Fixpoint fingerprint_bytes (val : PyObject) : option (list Z) :=
  match val with
  | PyNone => Some [OP_NONE]
  | PyBool _ => Some [OP_BOOL]
  | PyInt _ | PyLong _ => Some [OP_INT]
  | PyFloat => Some [OP_FLOAT]
  | PyComplex => Some [OP_COMPLEX]
  | PyTuple items =>
      bs ← (fix go (items : list PyObject) : option (list Z) :=
              match items with
              | [] => Some []
              | item :: rest =>
                  b ← fingerprint_bytes item; bs ← go rest; Some (b ++ bs)
              end) items;
      Some ([OP_START_TUPLE] ++ bs ++ [OP_END_TUPLE])
  | PyBytes => Some [OP_BYTES]
  | PyByteArray => Some [OP_BYTEARRAY]
  | NpScalar d => d ← d; bs ← dtype_bytes d; Some (OP_NP_SCALAR :: bs)
  | NpArray a => bs ← dtype_bytes (descr a); Some (array_header a ++ bs)
  | PyBufferObj b => buffer_bytes b
  | NpDescr d => bs ← dtype_bytes d; Some (OP_NP_DTYPE :: bs)
  | PyOpaque _ => None
  end.

Definition items_bytes (items : list PyObject) : option (list Z) :=
  (fix go (items : list PyObject) : option (list Z) :=
     match items with
     | [] => Some []
     | item :: rest => b ← fingerprint_bytes item; bs ← go rest; Some (b ++ bs)
     end) items.

Lemma fingerprint_bytes_tuple items :
  fingerprint_bytes (PyTuple items)
  = (bs ← items_bytes items; Some ([OP_START_TUPLE] ++ bs ++ [OP_END_TUPLE])).
Proof. reflexivity. Qed.

Lemma compute_fingerprint_tuple H w items :
  compute_fingerprint H w (PyTuple items)
  = (try! w ← string_writer_put_char H w OP_START_TUPLE;
     try! w ← compute_items H items w;
     try! w ← string_writer_put_char H w OP_END_TUPLE;
     Ok w).
Proof. reflexivity. Qed.

Section stream.
Variable H : heap_oracle.

Local Ltac len_norm Hroom :=
  repeat (progress (simpl in Hroom; rewrite ?length_app, ?length_fmap in Hroom)).

(** The statement proved by induction on the value. *)
Definition encodes_inline (val : PyObject) : Prop :=
  ∀ bs w, fingerprint_bytes val = Some bs → wf_static w →
          sw_n w + length bs ≤ STATIC_BUF_SIZE →
          ∃ w', compute_fingerprint H w val = Ok w' ∧ appended w bs w'.

Lemma tag_inline w c :
  to_uchar c = c → wf_static w → sw_n w + 1 ≤ STATIC_BUF_SIZE →
  ∃ w', string_writer_put_char H w c = Ok w' ∧ appended w [c] w'.
Proof.
  intros Hc Hw Hroom. destruct (put_char_inline H w c Hw Hroom) as (w' & E & A).
  rewrite Hc in A. eauto.
Qed.

Lemma items_inline items :
  Forall encodes_inline items →
  ∀ bs w, items_bytes items = Some bs → wf_static w →
          sw_n w + length bs ≤ STATIC_BUF_SIZE →
          ∃ w', compute_items H items w = Ok w' ∧ appended w bs w'.
Proof.
  induction 1 as [|x xs Hx _ IH]; intros bs w Hbs Hw Hroom.
  - injection Hbs as <-. exists w. split; [reflexivity | apply appended_refl; exact Hw].
  - change (items_bytes (x :: xs))
      with (b ← fingerprint_bytes x; bs ← items_bytes xs; Some (b ++ bs)) in Hbs.
    destruct (fingerprint_bytes x) as [b|] eqn:Hb; [|discriminate].
    destruct (items_bytes xs) as [bs'|] eqn:Hbs'; [|discriminate].
    simpl in Hbs. injection Hbs as <-. rewrite length_app in Hroom.
    destruct (Hx b w Hb Hw) as (w1 & E1 & A1); [lia|].
    pose proof A1 as (Hw1 & _ & Hn1 & _).
    destruct (IH bs' w1 eq_refl Hw1) as (w2 & E2 & A2); [lia|].
    exists w2. split; [|exact (appended_trans _ _ _ _ _ A1 A2)].
    change (compute_items H (x :: xs) w)
      with (try! w ← compute_fingerprint H w x; compute_items H xs w).
    rewrite E1. exact E2.
Qed.

Lemma buffer_inline b : encodes_inline (PyBufferObj b).
Proof.
  intros bs w Hbs Hw Hroom.
  change (fingerprint_bytes (PyBufferObj b)) with (buffer_bytes b) in Hbs.
  change (compute_fingerprint H w (PyBufferObj b)) with (compute_buffer_fingerprint H w b).
  unfold buffer_bytes, compute_buffer_fingerprint in *.
  change (match getbuffer_writable b with Some v => Some v | None => getbuffer_readonly b end)
    with (buffer_view b).
  destruct (buffer_view b) as [buf|]; [|discriminate].
  simpl in Hbs. injection Hbs as <-.
  len_norm Hroom.
  destruct (tag_inline w OP_BUFFER eq_refl Hw) as (w1 & E1 & A1); [lia|].
  pose proof A1 as (Hw1 & _ & Hn1 & _). simpl in Hn1.
  destruct (put_int32_inline H w1 (view_ndim buf) Hw1) as (w2 & E2 & A2); [lia|].
  pose proof A2 as (Hw2 & _ & Hn2 & _). simpl in Hn2.
  destruct (tag_inline w2 (if view_c_contiguous buf then CH_C
                           else if view_f_contiguous buf then CH_F else CH_A))
    as (w3 & E3 & A3); [destruct (view_c_contiguous buf), (view_f_contiguous buf); reflexivity
                       | exact Hw2 | lia |].
  pose proof A3 as (Hw3 & _ & Hn3 & _). simpl in Hn3.
  destruct (tag_inline w3 (if view_readonly buf then CH_R else CH_W))
    as (w4 & E4 & A4); [destruct (view_readonly buf); reflexivity | exact Hw3 | lia |].
  pose proof A4 as (Hw4 & _ & Hn4 & _). simpl in Hn4.
  destruct (put_string_inline H w4 (view_format buf) Hw4) as (w5 & E5 & A5); [lia|].
  pose proof A5 as (Hw5 & _ & Hn5 & _).
  len_norm Hn5.
  destruct (put_intp_inline H w5 (ob_type b) Hw5) as (w6 & E6 & A6); [lia|].
  exists w6. split.
  - rewrite E1. cbn [TRY]. rewrite E2. cbn [TRY]. rewrite E3. cbn [TRY].
    rewrite E4. cbn [TRY]. rewrite E5. cbn [TRY]. exact E6.
  - pose proof (appended_trans _ _ _ _ _
                  (appended_trans _ _ _ _ _
                     (appended_trans _ _ _ _ _
                        (appended_trans _ _ _ _ _
                           (appended_trans _ _ _ _ _ A1 A2) A3) A4) A5) A6) as A.
    rewrite <- !app_assoc in A. exact A.
Qed.

(** While the bytes fit the inline buffer, the encoder appends exactly
    the byte stream of the value. *)
Lemma fingerprint_inline val : encodes_inline val.
Proof.
  induction val as [|b|z|z| | |items IH| | |d|a|b|d|t] using PyObject_nested_ind;
    try (intros bs w Hbs Hw Hroom; injection Hbs as <-;
         apply tag_inline; [reflexivity | exact Hw | exact Hroom]).
  - (* tuple *)
    intros bs w Hbs Hw Hroom. rewrite fingerprint_bytes_tuple in Hbs.
    destruct (items_bytes items) as [bs'|] eqn:Hbs'; [|discriminate].
    simpl in Hbs. injection Hbs as <-.
    len_norm Hroom.
    destruct (tag_inline w OP_START_TUPLE eq_refl Hw) as (w1 & E1 & A1); [lia|].
    pose proof A1 as (Hw1 & _ & Hn1 & _). simpl in Hn1.
    destruct (items_inline items IH bs' w1 Hbs' Hw1) as (w2 & E2 & A2); [lia|].
    pose proof A2 as (Hw2 & _ & Hn2 & _).
    destruct (tag_inline w2 OP_END_TUPLE eq_refl Hw2) as (w3 & E3 & A3); [lia|].
    exists w3. split.
    + rewrite compute_fingerprint_tuple, E1. cbn [TRY]. rewrite E2. cbn [TRY].
      rewrite E3. reflexivity.
    + exact (appended_trans _ _ _ _ _ (appended_trans _ _ _ _ _ A1 A2) A3).
  - (* numpy scalar *)
    intros bs w Hbs Hw Hroom. destruct d as [d|]; [|discriminate].
    simpl in Hbs. destruct (dtype_bytes d) as [bs'|] eqn:Hd; [|discriminate].
    simpl in Hbs. injection Hbs as <-. simpl in Hroom.
    destruct (tag_inline w OP_NP_SCALAR eq_refl Hw) as (w1 & E1 & A1); [lia|].
    pose proof A1 as (Hw1 & _ & Hn1 & _). simpl in Hn1.
    destruct (dtype_inline H w1 d bs' Hd Hw1) as (w2 & E2 & A2); [lia|].
    exists w2. split; [|exact (appended_trans _ _ _ [_] _ A1 A2)].
    cbn [compute_fingerprint Py_IsNone PyBool_Check PyInt_Check PyLong_Check
         PyFloat_Check PyComplex_CheckExact PyBytes_Check PyByteArray_Check orb].
    rewrite E1. cbn [TRY]. rewrite E2. reflexivity.
  - (* array *)
    intros bs w Hbs Hw Hroom. simpl in Hbs.
    destruct (dtype_bytes (descr a)) as [bs'|] eqn:Hd; [|discriminate].
    simpl in Hbs. injection Hbs as <-.
    len_norm Hroom.
    apply array_inline; [exact Hd | exact Hw | lia].
  - apply buffer_inline.
  - (* dtype object *)
    intros bs w Hbs Hw Hroom.
    simpl in Hbs. destruct (dtype_bytes d) as [bs'|] eqn:Hd; [|discriminate].
    simpl in Hbs. injection Hbs as <-. simpl in Hroom.
    destruct (tag_inline w OP_NP_DTYPE eq_refl Hw) as (w1 & E1 & A1); [lia|].
    pose proof A1 as (Hw1 & _ & Hn1 & _). simpl in Hn1.
    destruct (dtype_inline H w1 d bs' Hd Hw1) as (w2 & E2 & A2); [lia|].
    exists w2. split; [|exact (appended_trans _ _ _ [_] _ A1 A2)].
    cbn [compute_fingerprint Py_IsNone PyBool_Check PyInt_Check PyLong_Check
         PyFloat_Check PyComplex_CheckExact PyBytes_Check PyByteArray_Check orb].
    rewrite E1. cbn [TRY]. exact E2.
  - intros bs w Hbs. discriminate.
Qed.
End stream.

(** * Fingerprints that fit the inline buffer *)

(** The writer [typeof_compute_fingerprint] starts from. *)
Lemma wf_static_fresh :
  wf_static (string_writer_init (mk_writer 0 PtrNull 0 0 (replicate STATIC_BUF_SIZE 0%Z))).
Proof. repeat split. simpl. unfold STATIC_BUF_SIZE. lia. Qed.

(** A value whose byte stream has at most 40 bytes is encoded as that
    stream. *)
Lemma stream_when_inline (H : heap_oracle) (val : PyObject) (bs : list Z) :
  fingerprint_bytes val = Some bs → length bs ≤ STATIC_BUF_SIZE →
  typeof_compute_fingerprint H val = FpBytes bs.
Proof.
  intros Hbs Hlen. unfold typeof_compute_fingerprint.
  destruct (fingerprint_inline H val bs _ Hbs wf_static_fresh) as (w' & E & A);
    [exact Hlen|].
  rewrite E. destruct A as (_ & _ & _ & ->). reflexivity.
Qed.

(** X1: while the inline buffer has room for it, the encoder appends to
    the writer exactly the byte stream of the value and returns 0; so a
    value whose stream has at most 40 bytes has that stream as its
    fingerprint, whatever the allocator does. *)
Theorem fingerprint_is_stream_when_inline (H : heap_oracle) (val : PyObject)
  (bs : list Z) :
  fingerprint_bytes val = Some bs →
  (∀ w, wf_static w → sw_n w + length bs ≤ STATIC_BUF_SIZE →
     ∃ w', compute_fingerprint H w val = Ok w'
       ∧ writer_bytes w' = writer_bytes w ++ bs
       ∧ sw_n w' = sw_n w + length bs
       ∧ sw_buf w' = PtrStaticBuf (self w))
  ∧ (length bs ≤ STATIC_BUF_SIZE → typeof_compute_fingerprint H val = FpBytes bs).
Proof.
  intros Hbs. split.
  - intros w Hw Hroom.
    destruct (fingerprint_inline H val bs w Hbs Hw Hroom)
      as (w' & E & (Hb & _) & Hself & Hn & Hbytes).
    exists w'. rewrite <- Hself. auto.
  - apply stream_when_inline. exact Hbs.
Qed.

Lemma fingerprint_is_stream_when_inline_witness :
  typeof_compute_fingerprint heap_ff
    (PyTuple [PyInt 1; PyTuple [PyFloat; NpArray ary_rank8]; PyNone])
  = FpBytes [40; 105; 40; 102; 65; 8; 0; 0; 0; 67; 87; 12; 41; 110; 41]%Z.
Proof.
  apply (proj2 (fingerprint_is_stream_when_inline heap_ff
                  (PyTuple [PyInt 1; PyTuple [PyFloat; NpArray ary_rank8]; PyNone])
                  _ eq_refl)).
  vm_compute. lia.
Defined.

(** Values of the same type shape: booleans and integers whatever they
    hold, tuples with elements of the same shape, and otherwise the same
    value. *)
Fixpoint same_shape (v1 v2 : PyObject) : Prop :=
  match v1, v2 with
  | PyBool _, PyBool _ => True
  | PyInt _, PyInt _ => True
  | PyLong _, PyLong _ => True
  | PyTuple xs, PyTuple ys =>
      (fix go (xs ys : list PyObject) : Prop :=
         match xs, ys with
         | [], [] => True
         | x :: xs, y :: ys => same_shape x y ∧ go xs ys
         | _, _ => False
         end) xs ys
  | _, _ => v1 = v2
  end.

Definition same_shape_items (xs ys : list PyObject) : Prop :=
  (fix go (xs ys : list PyObject) : Prop :=
     match xs, ys with
     | [], [] => True
     | x :: xs, y :: ys => same_shape x y ∧ go xs ys
     | _, _ => False
     end) xs ys.

Lemma same_shape_bytes v1 : ∀ v2, same_shape v1 v2 →
  fingerprint_bytes v1 = fingerprint_bytes v2.
Proof.
  induction v1 as [|b|z|z| | |items IH| | |d|a|b|d|t] using PyObject_nested_ind;
    intros v2 Hs; try (destruct v2; simpl in Hs; congruence || reflexivity || contradiction).
  destruct v2 as [| | | | | |items2| | | | | | |]; try (simpl in Hs; discriminate).
  change (same_shape_items items items2) in Hs.
  rewrite !fingerprint_bytes_tuple.
  assert (E : items_bytes items = items_bytes items2); [|rewrite E; reflexivity].
  revert items2 Hs. induction IH as [|x xs Hx _ IHxs]; intros [|y ys] Hs;
    try contradiction; [reflexivity|].
  destruct Hs as [Hxy Hrest].
  change (items_bytes (x :: xs))
    with (b ← fingerprint_bytes x; bs ← items_bytes xs; Some (b ++ bs)).
  change (items_bytes (y :: ys))
    with (b ← fingerprint_bytes y; bs ← items_bytes ys; Some (b ++ bs)).
  rewrite (Hx y Hxy), (IHxs ys Hrest). reflexivity.
Qed.

(** X2: two values of the same type shape whose byte stream has at most 40
    bytes get the same fingerprint, whatever they hold and whatever the two
    allocators do. *)
Theorem same_shape_same_fingerprint_when_inline (H1 H2 : heap_oracle)
  (v1 v2 : PyObject) (bs : list Z) :
  same_shape v1 v2 → fingerprint_bytes v1 = Some bs → length bs ≤ STATIC_BUF_SIZE →
  typeof_compute_fingerprint H1 v1 = FpBytes bs
  ∧ typeof_compute_fingerprint H2 v2 = FpBytes bs.
Proof.
  intros Hs Hbs Hlen. split.
  - apply stream_when_inline; assumption.
  - apply stream_when_inline; [|assumption].
    rewrite <- (same_shape_bytes v1 v2 Hs). exact Hbs.
Qed.

Lemma same_shape_same_fingerprint_when_inline_witness :
  typeof_compute_fingerprint heap_zero (PyTuple [PyInt 1; PyBool true; PyTuple [PyLong 7]])
  = FpBytes [40; 105; 63; 40; 105; 41; 41]%Z
  ∧ typeof_compute_fingerprint heap_ff (PyTuple [PyInt 2; PyBool false; PyTuple [PyLong 9]])
    = FpBytes [40; 105; 63; 40; 105; 41; 41]%Z.
Proof.
  apply same_shape_same_fingerprint_when_inline;
    [simpl; tauto | reflexivity | vm_compute; lia].
Defined.

(** The array [a] with its [WRITEABLE] flag set to [b]. *)
Definition with_writeable (a : PyArrayObject) (b : bool) : PyArrayObject :=
  mk_array (nd a) (flag_c_contiguous a) (flag_f_contiguous a) (flag_aligned a) b (descr a).

(** X3: the fingerprints of an array and of the same array made read-only
    are equal except for the seventh byte, ['W'] for one and ['R'] for the
    other. *)
Theorem array_mutability_byte (H : heap_oracle) (a : PyArrayObject) (bs : list Z) :
  dtype_bytes (descr a) = Some bs →
  ∃ pre, length pre = 6
    ∧ typeof_compute_fingerprint H (NpArray (with_writeable a true))
      = FpBytes (pre ++ [CH_W] ++ bs)
    ∧ typeof_compute_fingerprint H (NpArray (with_writeable a false))
      = FpBytes (pre ++ [CH_R] ++ bs).
Proof.
  intros Hd. pose proof (dtype_bytes_length _ _ Hd) as Hlen.
  exists ([OP_NP_ARRAY] ++ le32 (to_uint (nd a)) ++ [array_layout_char a]).
  split; [reflexivity|].
  split; apply stream_when_inline;
    try (simpl; rewrite Hd; reflexivity);
    rewrite !length_app; simpl; unfold STATIC_BUF_SIZE; lia.
Qed.

Lemma array_mutability_byte_witness :
  ∃ pre, length pre = 6
    ∧ typeof_compute_fingerprint heap_zero (NpArray (with_writeable ary_c true))
      = FpBytes (pre ++ [CH_W] ++ [12%Z])
    ∧ typeof_compute_fingerprint heap_zero (NpArray (with_writeable ary_c false))
      = FpBytes (pre ++ [CH_R] ++ [12%Z]).
Proof.
  exact (array_mutability_byte heap_zero ary_c [12%Z] eq_refl).
Defined.

(** The first byte of the stream of a value that is not a tuple is its
    tag, never the start-tuple marker. *)
Lemma non_tuple_first_byte v bs :
  PyTuple_Check v = false → fingerprint_bytes v = Some bs →
  ∃ c rest, bs = c :: rest ∧ c ≠ OP_START_TUPLE.
Proof.
  intros Hnt Hbs.
  destruct v as [|b|z|z| | |items| | |d|a|b|d|t]; try discriminate;
    try (injection Hbs as <-; eexists _, _; split; [reflexivity | discriminate]).
  - destruct d as [d|]; [|discriminate]. simpl in Hbs.
    destruct (dtype_bytes d); [|discriminate]. injection Hbs as <-.
    eexists _, _; split; [reflexivity | discriminate].
  - simpl in Hbs. destruct (dtype_bytes (descr a)); [|discriminate].
    injection Hbs as <-. eexists _, _; split; [reflexivity | discriminate].
  - simpl in Hbs. unfold buffer_bytes in Hbs.
    destruct (buffer_view b); [|discriminate]. injection Hbs as <-.
    eexists _, _; split; [reflexivity | discriminate].
  - simpl in Hbs. destruct (dtype_bytes d); [|discriminate]. injection Hbs as <-.
    eexists _, _; split; [reflexivity | discriminate].
Qed.

(** X4: for a first element [a] that is not a tuple, the fingerprints of
    [(a, (b, c))] and of [((a, b), c)] differ (at their second byte)
    whenever they fit the inline buffer. *)
Theorem nested_tuples_differ (H1 H2 : heap_oracle) (a b c : PyObject) (bs : list Z) :
  PyTuple_Check a = false →
  fingerprint_bytes (PyTuple [a; PyTuple [b; c]]) = Some bs →
  length bs ≤ STATIC_BUF_SIZE →
  typeof_compute_fingerprint H1 (PyTuple [a; PyTuple [b; c]])
  ≠ typeof_compute_fingerprint H2 (PyTuple [PyTuple [a; b]; c]).
Proof.
  intros Hnt Hbs Hlen.
  rewrite (stream_when_inline H1 _ bs Hbs Hlen).
  simpl in Hbs.
  destruct (fingerprint_bytes a) as [A|] eqn:HA; [|discriminate].
  destruct (fingerprint_bytes b) as [B|] eqn:HB; [|discriminate].
  destruct (fingerprint_bytes c) as [C|] eqn:HC; [|discriminate].
  simpl in Hbs. injection Hbs as <-.
  assert (Hbs2 : ∃ rest, fingerprint_bytes (PyTuple [PyTuple [a; b]; c])
                         = Some (OP_START_TUPLE :: OP_START_TUPLE :: rest)
                         ∧ length rest + 2 = 4 + length A + length B + length C).
  { simpl. rewrite HA, HB, HC. simpl. eexists. split; [reflexivity|].
    repeat (progress (simpl; rewrite ?length_app)). lia. }
  destruct Hbs2 as (rest2 & Hbs2 & Hlen2).
  rewrite (stream_when_inline H2 _ _ Hbs2).
  - destruct (non_tuple_first_byte a A Hnt HA) as (t & rest & -> & Ht).
    simpl. intros E. injection E as E. congruence.
  - revert Hlen. repeat (progress (simpl; rewrite ?length_app)). lia.
Qed.

Lemma nested_tuples_differ_witness :
  typeof_compute_fingerprint heap_zero (PyTuple [PyInt 1; PyTuple [PyFloat; PyNone]])
  ≠ typeof_compute_fingerprint heap_ff (PyTuple [PyTuple [PyInt 1; PyFloat]; PyNone]).
Proof.
  apply (nested_tuples_differ heap_zero heap_ff (PyInt 1) PyFloat PyNone
           [40; 105; 40; 102; 110; 41; 41]%Z);
    [reflexivity | reflexivity | vm_compute; lia].
Defined.

Section writer_props.
Variable H : heap_oracle.

Lemma le32_bytes v : Forall (λ b, (0 ≤ b < 256)%Z) (le32 v).
Proof.
  unfold le32. repeat constructor; rewrite land_255; apply Z.mod_pos_bound; lia.
Qed.

Lemma le64_bytes v : Forall (λ b, (0 ≤ b < 256)%Z) (le64 v).
Proof.
  unfold le64. repeat constructor; rewrite land_255; apply Z.mod_pos_bound; lia.
Qed.

(** X5: with room in the inline buffer, [string_writer_put_int32] appends
    four bytes, each in [0, 255], that read as a little-endian integer give
    the argument modulo [2^32]. *)
Theorem put_int32_little_endian (w : string_writer_t) (v : Z) :
  wf_static w → sw_n w + 4 ≤ STATIC_BUF_SIZE →
  ∃ w' bs, string_writer_put_int32 H w v = Ok w'
    ∧ writer_bytes w' = writer_bytes w ++ bs
    ∧ sw_n w' = sw_n w + 4
    ∧ length bs = 4
    ∧ Forall (λ b, (0 ≤ b < 256)%Z) bs
    ∧ le_decode bs = (v mod 2 ^ 32)%Z.
Proof.
  intros Hw Hroom.
  destruct (put_int32_inline H w v Hw Hroom) as (w' & E & _ & _ & Hn & Hb).
  exists w', (le32 (to_uint v)). repeat split; try assumption.
  - apply le32_bytes.
  - rewrite le32_decode. unfold to_uint. apply Z.mod_mod. lia.
Qed.

(** X6: with room in the inline buffer, [string_writer_put_intp] appends
    eight bytes that read as a little-endian integer give the argument
    modulo [2^64] (its two's complement representation). *)
Theorem put_intp_little_endian (w : string_writer_t) (v : Z) :
  wf_static w → sw_n w + 8 ≤ STATIC_BUF_SIZE →
  ∃ w' bs, string_writer_put_intp H w v = Ok w'
    ∧ writer_bytes w' = writer_bytes w ++ bs
    ∧ sw_n w' = sw_n w + 8
    ∧ length bs = 8
    ∧ Forall (λ b, (0 ≤ b < 256)%Z) bs
    ∧ le_decode bs = (v mod 2 ^ 64)%Z.
Proof.
  intros Hw Hroom.
  destruct (put_intp_inline H w v Hw Hroom) as (w' & E & _ & _ & Hn & Hb).
  exists w', (le64 v). repeat split; try assumption.
  - apply le64_bytes.
  - apply le64_decode.
Qed.

(** X7: with room in the inline buffer, [string_writer_put_string] appends
    the characters of the string and a terminating zero byte; for the
    [NULL] string it appends the single zero byte. *)
Theorem put_string_zero_terminated (w : string_writer_t) (s : option (list Z)) :
  wf_static w → sw_n w + (length (default [] s) + 1) ≤ STATIC_BUF_SIZE →
  ∃ w', string_writer_put_string H w s = Ok w'
    ∧ writer_bytes w' = writer_bytes w ++ (to_uchar <$> default [] s) ++ [0%Z]
    ∧ sw_n w' = sw_n w + length (default [] s) + 1.
Proof.
  intros Hw Hroom.
  destruct (put_string_inline H w s Hw Hroom) as (w' & E & _ & _ & Hn & Hb).
  exists w'. split; [exact E|]. rewrite Hb, Hn, length_fmap, length_app, fmap_app.
  split; [reflexivity | simpl; lia].
Qed.
End writer_props.

Lemma put_int32_little_endian_witness :
  ∃ w' bs, string_writer_put_int32 heap_zero (none_writer 0) (-2) = Ok w'
    ∧ writer_bytes w' = [OP_NONE] ++ bs
    ∧ sw_n w' = 5
    ∧ length bs = 4
    ∧ Forall (λ b, (0 ≤ b < 256)%Z) bs
    ∧ le_decode bs = 4294967294%Z.
Proof.
  apply (put_int32_little_endian heap_zero (none_writer 0) (-2)).
  - repeat split. simpl. unfold STATIC_BUF_SIZE. lia.
  - simpl. unfold STATIC_BUF_SIZE. lia.
Defined.

Lemma put_intp_little_endian_witness :
  ∃ w' bs, string_writer_put_intp heap_zero (none_writer 0) 140737488355328 = Ok w'
    ∧ writer_bytes w' = [OP_NONE] ++ bs
    ∧ sw_n w' = 9
    ∧ length bs = 8
    ∧ Forall (λ b, (0 ≤ b < 256)%Z) bs
    ∧ le_decode bs = 140737488355328%Z.
Proof.
  apply (put_intp_little_endian heap_zero (none_writer 0) 140737488355328).
  - repeat split. simpl. unfold STATIC_BUF_SIZE. lia.
  - simpl. unfold STATIC_BUF_SIZE. lia.
Defined.

Lemma put_string_zero_terminated_witness :
  ∃ w', string_writer_put_string heap_zero (none_writer 0) (Some [100; 56]%Z) = Ok w'
    ∧ writer_bytes w' = [OP_NONE] ++ [100; 56]%Z ++ [0%Z]
    ∧ sw_n w' = 4.
Proof.
  apply (put_string_zero_terminated heap_zero (none_writer 0) (Some [100; 56]%Z)).
  - repeat split. simpl. unfold STATIC_BUF_SIZE. lia.
  - simpl. unfold STATIC_BUF_SIZE. lia.
Defined.

(** * The writer outside its inline buffer *)

Definition HEAP_BLOCK_SIZE : nat := 161.

(** The writer has left its inline buffer: [buf] is a heap block of 161
    bytes and [allocated] is still 40. *)
Definition wf_heap (w : string_writer_t) : Prop :=
  ∃ blk, sw_buf w = PtrBlock blk ∧ length blk = HEAP_BLOCK_SIZE
         ∧ sw_allocated w = STATIC_BUF_SIZE ∧ STATIC_BUF_SIZE < sw_n w.

Section heap_phase.
Variable H : heap_oracle.
Hypothesis no_failure : ∀ k, alloc_fails H k = false.

Lemma realloc_same_size k blk :
  length blk = HEAP_BLOCK_SIZE → realloc H k blk HEAP_BLOCK_SIZE = Some blk.
Proof.
  intros Hl. unfold realloc. rewrite no_failure, Hl, Nat.sub_diag.
  rewrite take_ge by lia. simpl. rewrite app_nil_r. reflexivity.
Qed.

(** The first byte that does not fit: the writer moves to a block whose
    first 40 bytes are those of the fresh memory. *)
Lemma put_char_grows w c :
  wf_static w → sw_n w = STATIC_BUF_SIZE →
  ∃ w', string_writer_put_char H w c = Ok w'
    ∧ wf_heap w' ∧ sw_n w' = S STATIC_BUF_SIZE
    ∧ writer_bytes w'
      = ((λ i, to_uchar (fresh H i)) <$> seq 0 STATIC_BUF_SIZE) ++ [to_uchar c].
Proof.
  intros (Hb & Ha & Hl & _) Hn.
  destruct w as [sf b n al sb]. simpl in Hb, Ha, Hl, Hn. subst b n al.
  exists (mk_writer sf
            (PtrBlock (<[STATIC_BUF_SIZE := to_uchar c]>
                         ((λ i, to_uchar (fresh H i)) <$> seq 0 HEAP_BLOCK_SIZE)))
            (S STATIC_BUF_SIZE) STATIC_BUF_SIZE sb).
  split; [|split; [|split]].
  - unfold string_writer_put_char, string_writer_ensure, buf_is_static, malloc.
    cbn [sw_buf sw_n sw_allocated self]. rewrite no_failure.
    rewrite bool_decide_eq_true_2 by reflexivity.
    change (STATIC_BUF_SIZE + 1 <=? STATIC_BUF_SIZE) with false.
    change (STATIC_BUF_SIZE * 4 + 1) with HEAP_BLOCK_SIZE.
    cbn [TRY]. unfold store, set_buf. cbn [sw_buf sw_n sw_allocated self sw_static_buf].
    rewrite length_fmap, length_seq.
    change (STATIC_BUF_SIZE <? HEAP_BLOCK_SIZE) with true.
    cbn [TRY]. unfold set_n. cbn [sw_buf sw_n sw_allocated self sw_static_buf].
    rewrite to_uchar_idemp, Nat.add_1_r. reflexivity.
  - eexists. split; [reflexivity|].
    rewrite length_insert, length_fmap, length_seq.
    repeat split. simpl. unfold STATIC_BUF_SIZE. lia.
  - reflexivity.
  - reflexivity.
Qed.

Lemma put_char_heap w c :
  wf_heap w → sw_n w < HEAP_BLOCK_SIZE →
  ∃ w', string_writer_put_char H w c = Ok w'
    ∧ wf_heap w' ∧ sw_n w' = S (sw_n w)
    ∧ writer_bytes w' = writer_bytes w ++ [to_uchar c].
Proof.
  intros (blk & Hb & Hl & Ha & Hn) Hroom.
  unfold string_writer_put_char, string_writer_ensure, buf_is_static.
  rewrite Hb, Ha.
  destruct (Nat.leb_spec (sw_n w + 1) STATIC_BUF_SIZE); [lia|].
  change (STATIC_BUF_SIZE * 4 + 1) with HEAP_BLOCK_SIZE.
  rewrite realloc_same_size by exact Hl. cbn [TRY].
  unfold store, set_buf. cbn [sw_buf sw_n].
  destruct (Nat.ltb_spec (sw_n w) (length blk)); [|lia].
  cbn [TRY]. eexists. split; [reflexivity|].
  unfold set_n, set_buf, writer_bytes. cbn [sw_buf sw_n sw_allocated].
  split; [|split; [lia|]].
  - exists (<[sw_n w := to_uchar (to_uchar c)]> blk).
    rewrite length_insert. repeat split; try assumption; lia.
  - rewrite Hb, to_uchar_idemp, Nat.add_1_r.
    apply take_insert_snoc; [lia | reflexivity].
Qed.

(** Once 161 bytes have been written, one more byte is a write past the
    end of the block. *)
Lemma put_char_overruns w c :
  wf_heap w → HEAP_BLOCK_SIZE ≤ sw_n w → string_writer_put_char H w c = Fault.
Proof.
  intros (blk & Hb & Hl & Ha & Hn) Hfull.
  unfold string_writer_put_char, string_writer_ensure, buf_is_static.
  rewrite Hb, Ha.
  destruct (Nat.leb_spec (sw_n w + 1) STATIC_BUF_SIZE); [lia|].
  change (STATIC_BUF_SIZE * 4 + 1) with HEAP_BLOCK_SIZE.
  rewrite realloc_same_size by exact Hl. cbn [TRY].
  unfold store, set_buf. cbn [sw_buf sw_n].
  destruct (Nat.ltb_spec (sw_n w) (length blk)); [lia|]. reflexivity.
Qed.
End heap_phase.

(** A run of [string_writer_put_char] calls, each under [TRY]. *)
Fixpoint put_chars (H : heap_oracle) (cs : list Z) (w : string_writer_t) : status :=
  match cs with
  | [] => Ok w
  | c :: rest => try! w ← string_writer_put_char H w c; put_chars H rest w
  end.

Section capacity.
Variable H : heap_oracle.
Hypothesis no_failure : ∀ k, alloc_fails H k = false.

Lemma put_chars_app cs1 : ∀ cs2 w,
  put_chars H (cs1 ++ cs2) w = TRY (put_chars H cs1 w) (put_chars H cs2).
Proof.
  induction cs1 as [|c cs1 IH]; intros cs2 w; simpl; [reflexivity|].
  destruct (string_writer_put_char H w c); simpl; [apply IH | reflexivity | reflexivity].
Qed.

Lemma put_chars_split k cs w :
  put_chars H cs w = TRY (put_chars H (take k cs) w) (put_chars H (drop k cs)).
Proof. rewrite <- put_chars_app, take_drop. reflexivity. Qed.

Lemma put_chars_inline cs : ∀ w,
  wf_static w → sw_n w + length cs ≤ STATIC_BUF_SIZE →
  ∃ w', put_chars H cs w = Ok w' ∧ appended w (to_uchar <$> cs) w'.
Proof.
  induction cs as [|c cs IH]; intros w Hw Hroom; simpl in *.
  - exists w. split; [reflexivity | apply appended_refl; exact Hw].
  - destruct (put_char_inline H w c Hw) as (w1 & E1 & A1); [lia|].
    pose proof A1 as (Hw1 & _ & Hn1 & _). simpl in Hn1.
    destruct (IH w1 Hw1) as (w2 & E2 & A2); [lia|].
    exists w2. rewrite E1. split; [exact E2|].
    exact (appended_trans _ _ _ [_] _ A1 A2).
Qed.

Lemma put_chars_heap cs : ∀ w,
  wf_heap w → sw_n w + length cs ≤ HEAP_BLOCK_SIZE →
  ∃ w', put_chars H cs w = Ok w' ∧ wf_heap w'
        ∧ sw_n w' = sw_n w + length cs
        ∧ writer_bytes w' = writer_bytes w ++ (to_uchar <$> cs).
Proof.
  induction cs as [|c cs IH]; intros w Hw Hroom; simpl in *.
  - exists w. rewrite app_nil_r. repeat split; [exact Hw | lia].
  - destruct (put_char_heap H no_failure w c Hw) as (w1 & E1 & Hw1 & Hn1 & Hb1); [lia|].
    destruct (IH w1 Hw1) as (w2 & E2 & Hw2 & Hn2 & Hb2); [lia|].
    exists w2. rewrite E1. split; [exact E2|]. split; [exact Hw2|].
    split; [lia|]. rewrite Hb2, Hb1, <- app_assoc. reflexivity.
Qed.

Lemma put_chars_overrun cs : ∀ w,
  wf_heap w → sw_n w ≤ HEAP_BLOCK_SIZE → HEAP_BLOCK_SIZE < sw_n w + length cs →
  put_chars H cs w = Fault.
Proof.
  induction cs as [|c cs IH]; intros w Hw Hn Hover; simpl in *; [lia|].
  destruct (Nat.lt_ge_cases (sw_n w) HEAP_BLOCK_SIZE) as [Hlt|Hge].
  - destruct (put_char_heap H no_failure w c Hw Hlt) as (w1 & E1 & Hw1 & Hn1 & _).
    rewrite E1. cbn [TRY]. apply IH; [exact Hw1 | lia | lia].
  - rewrite (put_char_overruns H no_failure w c Hw Hge). reflexivity.
Qed.

Definition fresh_bytes (k : nat) : list Z := (λ i, to_uchar (fresh H i)) <$> seq 0 k.

(** The writer the encoder starts from. *)
Definition fresh_writer : string_writer_t :=
  string_writer_init (mk_writer 0 PtrNull 0 0 (replicate STATIC_BUF_SIZE 0%Z)).

(** The first 41 or more bytes: 40 bytes inline, then the move to the
    heap block. *)
Lemma put_chars_grow cs :
  STATIC_BUF_SIZE < length cs →
  ∃ w2, put_chars H (take (S STATIC_BUF_SIZE) cs) fresh_writer = Ok w2
    ∧ wf_heap w2 ∧ sw_n w2 = S STATIC_BUF_SIZE
    ∧ writer_bytes w2
      = fresh_bytes STATIC_BUF_SIZE ++ (to_uchar <$> take 1 (drop STATIC_BUF_SIZE cs)).
Proof.
  intros Hlen.
  destruct (drop STATIC_BUF_SIZE cs) as [|c rest] eqn:Hdrop.
  { apply (f_equal length) in Hdrop. rewrite length_drop in Hdrop. simpl in Hdrop. lia. }
  assert (Htake : take (S STATIC_BUF_SIZE) cs = take STATIC_BUF_SIZE cs ++ [c]).
  { apply take_S_r. rewrite <- (Nat.add_0_r STATIC_BUF_SIZE), <- lookup_drop, Hdrop.
    reflexivity. }
  rewrite Htake, put_chars_app.
  destruct (put_chars_inline (take STATIC_BUF_SIZE cs) fresh_writer wf_static_fresh)
    as (w1 & E1 & Hw1 & _ & Hn1 & _).
  { rewrite length_take. change (sw_n fresh_writer) with 0. lia. }
  rewrite E1. cbn [TRY put_chars].
  rewrite length_fmap, length_take in Hn1. change (sw_n fresh_writer) with 0 in Hn1.
  destruct (put_char_grows H no_failure w1 c Hw1) as (w2 & E2 & Hw2 & Hn2 & Hb2); [lia|].
  exists w2. rewrite E2. repeat split; assumption.
Qed.

(** What a run of single-byte writes leaves in a fresh writer. *)
Lemma put_chars_capacity (cs : list Z) :
  (length cs ≤ STATIC_BUF_SIZE →
   ∃ w', put_chars H cs fresh_writer = Ok w' ∧ wf_static w'
     ∧ writer_bytes w' = to_uchar <$> cs)
  ∧ (STATIC_BUF_SIZE < length cs ≤ HEAP_BLOCK_SIZE →
     ∃ w', put_chars H cs fresh_writer = Ok w' ∧ wf_heap w'
       ∧ writer_bytes w'
         = fresh_bytes STATIC_BUF_SIZE ++ (to_uchar <$> drop STATIC_BUF_SIZE cs))
  ∧ (HEAP_BLOCK_SIZE < length cs → put_chars H cs fresh_writer = Fault).
Proof.
  split; [|split].
  - intros Hlen.
    destruct (put_chars_inline cs fresh_writer wf_static_fresh) as (w' & E & A);
      [change (sw_n fresh_writer) with 0; lia|].
    exists w'. split; [exact E|]. destruct A as (Hw' & _ & _ & ->). auto.
  - intros [Hlo Hhi].
    destruct (put_chars_grow cs Hlo) as (w2 & E2 & Hw2 & Hn2 & Hb2).
    rewrite (put_chars_split (S STATIC_BUF_SIZE) cs), E2. cbn [TRY].
    destruct (put_chars_heap (drop (S STATIC_BUF_SIZE) cs) w2 Hw2)
      as (w3 & E3 & Hw3 & _ & Hb3).
    { rewrite length_drop, Hn2. unfold HEAP_BLOCK_SIZE, STATIC_BUF_SIZE in *. lia. }
    exists w3. split; [exact E3|]. split; [exact Hw3|].
    rewrite Hb3, Hb2, <- app_assoc, <- fmap_app. do 2 f_equal.
    rewrite <- (take_drop 1 (drop STATIC_BUF_SIZE cs)) at 2.
    rewrite drop_drop, Nat.add_1_r. reflexivity.
  - intros Hlen.
    destruct (put_chars_grow cs) as (w2 & E2 & Hw2 & Hn2 & _).
    { unfold HEAP_BLOCK_SIZE, STATIC_BUF_SIZE in *. lia. }
    rewrite (put_chars_split (S STATIC_BUF_SIZE) cs), E2. cbn [TRY].
    apply put_chars_overrun; [exact Hw2 | |].
    + rewrite Hn2. unfold HEAP_BLOCK_SIZE, STATIC_BUF_SIZE. lia.
    + rewrite length_drop, Hn2. unfold HEAP_BLOCK_SIZE, STATIC_BUF_SIZE in *. lia.
Qed.

(** X8: what a run of [string_writer_put_char] calls leaves in a fresh
    writer, when no allocation fails.  Up to 40 bytes the writer holds the
    bytes written, in its inline buffer.  From the 41st byte on it holds,
    in a heap block of 161 bytes, 40 bytes of whatever the allocator
    returned followed by the bytes written after the first 40: the inline
    bytes are not carried over, and [allocated] is still 40.  The block is
    never enlarged: the 162nd byte is written past its end. *)
Theorem writer_capacity (cs : list Z) :
  (length cs ≤ STATIC_BUF_SIZE →
   ∃ w', put_chars H cs fresh_writer = Ok w'
     ∧ sw_buf w' = PtrStaticBuf (self w')
     ∧ writer_bytes w' = to_uchar <$> cs)
  ∧ (STATIC_BUF_SIZE < length cs ≤ HEAP_BLOCK_SIZE →
     ∃ w' blk, put_chars H cs fresh_writer = Ok w'
       ∧ sw_buf w' = PtrBlock blk ∧ length blk = HEAP_BLOCK_SIZE
       ∧ sw_allocated w' = STATIC_BUF_SIZE
       ∧ writer_bytes w'
         = fresh_bytes STATIC_BUF_SIZE ++ (to_uchar <$> drop STATIC_BUF_SIZE cs))
  ∧ (HEAP_BLOCK_SIZE < length cs → put_chars H cs fresh_writer = Fault).
Proof.
  destruct (put_chars_capacity cs) as (Hsmall & Hmid & Hbig).
  split; [|split; [|exact Hbig]].
  - intros Hlen. destruct (Hsmall Hlen) as (w' & E & (Hb & _) & Hbytes).
    exists w'. auto.
  - intros Hlen. destruct (Hmid Hlen) as (w' & E & (blk & Hb & Hl & Ha & _) & Hbytes).
    exists w', blk. auto.
Qed.
End capacity.

Lemma writer_capacity_witness :
  put_chars heap_ff (replicate 162 OP_INT) fresh_writer = Fault.
Proof.
  apply (proj2 (proj2 (writer_capacity heap_ff (λ _, eq_refl) (replicate 162 OP_INT)))).
  rewrite length_replicate. unfold HEAP_BLOCK_SIZE. lia.
Defined.

Section int_tuples.
Variable H : heap_oracle.
Hypothesis no_failure : ∀ k, alloc_fails H k = false.

Lemma compute_items_ints z k : ∀ w,
  compute_items H (replicate k (PyInt z)) w = put_chars H (replicate k OP_INT) w.
Proof.
  induction k as [|k IH]; intros w; [reflexivity|].
  change (compute_items H (replicate (S k) (PyInt z)) w)
    with (try! w ← string_writer_put_char H w OP_INT;
          compute_items H (replicate k (PyInt z)) w).
  simpl. destruct (string_writer_put_char H w OP_INT); simpl; [apply IH | reflexivity..].
Qed.

Lemma compute_fingerprint_ints z k w :
  compute_fingerprint H w (PyTuple (replicate k (PyInt z)))
  = put_chars H ([OP_START_TUPLE] ++ replicate k OP_INT ++ [OP_END_TUPLE]) w.
Proof.
  rewrite compute_fingerprint_tuple. simpl.
  destruct (string_writer_put_char H w OP_START_TUPLE) as [w1| |]; simpl; try reflexivity.
  rewrite compute_items_ints, put_chars_app.
  destruct (put_chars H (replicate k OP_INT) w1); reflexivity.
Qed.

(** X9: the fingerprint of a tuple of [k] integers, when no allocation
    fails.  Up to 38 elements it is the start marker, [k] integer tags and
    the end marker.  From 39 to 159 elements its first 40 bytes are those
    of the memory the allocator returned.  From 160 elements on the
    encoder writes past the end of its 161-byte block. *)
Theorem int_tuple_fingerprint_by_size (z : Z) (k : nat) :
  (k ≤ 38 →
   typeof_compute_fingerprint H (PyTuple (replicate k (PyInt z)))
   = FpBytes ([OP_START_TUPLE] ++ replicate k OP_INT ++ [OP_END_TUPLE]))
  ∧ (39 ≤ k ≤ 159 →
     typeof_compute_fingerprint H (PyTuple (replicate k (PyInt z)))
     = FpBytes (fresh_bytes H STATIC_BUF_SIZE ++ replicate (k - 39) OP_INT
                ++ [OP_END_TUPLE]))
  ∧ (160 ≤ k →
     typeof_compute_fingerprint H (PyTuple (replicate k (PyInt z))) = FpFault).
Proof.
  pose proof (put_chars_capacity H no_failure
                ([OP_START_TUPLE] ++ replicate k OP_INT ++ [OP_END_TUPLE]))
    as (Hsmall & Hmid & Hbig).
  assert (Hlen : length ([OP_START_TUPLE] ++ replicate k OP_INT ++ [OP_END_TUPLE]) = k + 2).
  { simpl. rewrite length_app, length_replicate. simpl. lia. }
  rewrite Hlen in Hsmall, Hmid, Hbig.
  unfold typeof_compute_fingerprint. fold fresh_writer.
  rewrite compute_fingerprint_ints.
  split; [|split]; intros Hk.
  - destruct Hsmall as (w' & -> & _ & ->); [unfold STATIC_BUF_SIZE; lia|].
    f_equal. simpl. rewrite fmap_app, fmap_replicate. reflexivity.
  - destruct Hmid as (w' & -> & _ & ->); [unfold STATIC_BUF_SIZE, HEAP_BLOCK_SIZE; lia|].
    do 2 f_equal.
    change (drop STATIC_BUF_SIZE ([OP_START_TUPLE] ++ replicate k OP_INT ++ [OP_END_TUPLE]))
      with (drop 39 (replicate k OP_INT ++ [OP_END_TUPLE])).
    rewrite drop_app_le by (rewrite length_replicate; lia).
    rewrite drop_replicate, fmap_app, fmap_replicate. reflexivity.
  - rewrite Hbig; [reflexivity | unfold HEAP_BLOCK_SIZE; lia].
Qed.
End int_tuples.

Lemma int_tuple_fingerprint_by_size_witness :
  typeof_compute_fingerprint heap_ff (PyTuple (replicate 3 (PyInt 5)))
  = FpBytes [40; 105; 105; 105; 41]%Z
  ∧ typeof_compute_fingerprint heap_ff (PyTuple (replicate 40 (PyInt 5)))
    = FpBytes (replicate 40 255%Z ++ [105; 41]%Z)
  ∧ typeof_compute_fingerprint heap_ff (PyTuple (replicate 160 (PyInt 5))) = FpFault.
Proof.
  split; [|split].
  - apply (proj1 (int_tuple_fingerprint_by_size heap_ff (λ _, eq_refl) 5 3)). lia.
  - apply (proj1 (proj2 (int_tuple_fingerprint_by_size heap_ff (λ _, eq_refl) 5 40))). lia.
  - apply (proj2 (proj2 (int_tuple_fingerprint_by_size heap_ff (λ _, eq_refl) 5 160))). lia.
Defined.

(** * Further properties of the two caches *)

Lemma fallback_state d val retain s :
  stack (_typecode_fallback d val retain s).2 = stack s
  ∧ fingerprint_hashtable (_typecode_fallback d val retain s).2 = fingerprint_hashtable s
  ∧ cached_arycode (_typecode_fallback d val retain s).2 = cached_arycode s
  ∧ resolver_log (_typecode_fallback d val retain s).2 = (val, retain) :: resolver_log s.
Proof.
  unfold _typecode_fallback. destruct (typeof_pyval d val) as [[c|]|]; repeat split.
Qed.

(** The resolver returns [-1] exactly when it fails or its code is [-1]. *)
Lemma fallback_code d val retain s :
  (_typecode_fallback d val retain s).1
  = match typeof_pyval d val with Some (Some c) => to_int c | _ => (-1)%Z end.
Proof.
  unfold _typecode_fallback. destruct (typeof_pyval d val) as [[c|]|]; reflexivity.
Qed.

(** A call of [typecode_using_fingerprint] never touches the lookup table
    of arrays and never removes or changes an entry of the hash table. *)
Lemma using_fingerprint_insert_only (d : dispatcher) (env : call_env)
  (val : PyObject) (s : world) (t : Z) (s' : world) :
  typecode_using_fingerprint d env val s = Some (t, s') →
  cached_arycode s' = cached_arycode s
  ∧ (default [] (fingerprint_hashtable s') = default [] (fingerprint_hashtable s)
     ∨ ∃ e, default [] (fingerprint_hashtable s')
            = e :: default [] (fingerprint_hashtable s)
          ∧ data e = t ∧ (0 ≤ t)%Z).
Proof.
  unfold typecode_using_fingerprint.
  assert (Hd : ∀ ht, match fingerprint_hashtable s with
                     | Some ht => Some ht
                     | None => if hashtable_new_fails env then None else Some []
                     end = Some ht → ht = default [] (fingerprint_hashtable s)).
  { intros ht. destruct (fingerprint_hashtable s); [intros [= <-]; reflexivity|].
    destruct (hashtable_new_fails env); [discriminate | intros [= <-]; reflexivity]. }
  destruct (match fingerprint_hashtable s with
            | Some ht => Some ht
            | None => if hashtable_new_fails env then None else Some []
            end) as [ht|] eqn:Hcreated.
  2:{ intros [= <- <-]. split; [reflexivity | left; reflexivity]. }
  specialize (Hd ht eq_refl). subst ht. clear Hcreated.
  destruct (compute_fingerprint _ _ val) as [w|e w|]; [| |discriminate].
  - cbn zeta. destruct (_Py_HASHTABLE_GET _ _ w) as [tc|].
    { intros [= <- <-]. split; [reflexivity | left; reflexivity]. }
    unfold typecode_fallback_keep_ref.
    match goal with
    | |- context [_typecode_fallback d val true ?st] =>
        pose proof (fallback_state d val true st) as (_ & Ht & Ha & _);
        destruct (_typecode_fallback d val true st) as [tc s1]
    end.
    simpl in Ht, Ha. cbn beta iota zeta.
    destruct (Z.leb_spec 0 tc).
    + destruct (key_malloc env).
      * destruct (hashtable_set_fails env); intros [= <- <-]; simpl.
        -- rewrite Ha, Ht. split; [reflexivity | left; reflexivity].
        -- rewrite Ha. split; [reflexivity|]. right.
           eexists. split; [reflexivity|]. split; [reflexivity | assumption].
      * intros [= <- <-]. simpl. rewrite Ha, Ht. split; [reflexivity | left; reflexivity].
    + intros [= <- <-]. rewrite Ha, Ht. split; [reflexivity | left; reflexivity].
  - destruct e; try (intros [= <- <-]; split; [reflexivity | left; reflexivity]).
    unfold typecode_fallback.
    match goal with
    | |- context [_typecode_fallback d val false ?st] =>
        pose proof (fallback_state d val false st) as (_ & Ht & Ha & _);
        destruct (_typecode_fallback d val false st) as [tc s1]
    end.
    simpl in Ht, Ha. intros [= <- <-].
    rewrite Ha, Ht. split; [reflexivity | left; reflexivity].
Qed.

(** [typecode_ndarray] on its direct path leaves the hash table alone and
    keeps the size of the lookup table. *)
Lemma typecode_ndarray_fast_state d env a s t s' :
  fast_path_applicable a = true →
  typecode_ndarray d env a s = Some (t, s') →
  fingerprint_hashtable s' = fingerprint_hashtable s
  ∧ stack s' = stack s
  ∧ length (cached_arycode s') = length (cached_arycode s).
Proof.
  intros Ha. rewrite (typecode_ndarray_fast d env a s Ha).
  destruct (cached_arycode s !! _) as [v|]; [|discriminate].
  destruct (v =? -1)%Z.
  - unfold typecode_fallback_keep_ref.
    destruct (_typecode_fallback d (NpArray a) true s) as [tc s1] eqn:Hfb.
    pose proof (fallback_state d (NpArray a) true s) as (Hs & Ht & Hc & _).
    rewrite Hfb in Hs, Ht, Hc. simpl in Hs, Ht, Hc.
    intros [= <- <-]. simpl. rewrite length_insert, Hc. auto.
  - intros [= <- <-]. auto.
Qed.



(** The caches are well formed: the hash table holds valid typecodes and
    the lookup table has its 180 slots. *)
Definition caches_ok (s : world) : Prop :=
  table_valid s
  ∧ length (cached_arycode s) = Z.to_nat (N_NDIM * N_LAYOUT * N_DTYPES).

Lemma typeof_typecode_keeps_caches_ok d env val s t s' :
  caches_ok s → typeof_typecode d env val s = Some (t, s') → caches_ok s'.
Proof.
  intros [Hv Hl] Hcall.
  assert (Hfp : typecode_using_fingerprint d env val s = Some (t, s') → caches_ok s').
  { intros E. destruct (using_fingerprint_insert_only d env val s t s' E) as [Ha Ht].
    split; [|rewrite Ha; exact Hl].
    unfold table_valid in *.
    destruct Ht as [-> | (e & -> & He & Hpos)]; [exact Hv|].
    constructor; [rewrite He; exact Hpos | exact Hv]. }
  destruct val as [| | | | | | | | | |a| | |]; try exact (Hfp Hcall).
  simpl in Hcall. destruct (fast_path_applicable a) eqn:Ha.
  - destruct (typecode_ndarray_fast_state d env a s t s' Ha Hcall) as (Ht & _ & Hlen).
    split; [unfold table_valid; rewrite Ht; exact Hv | rewrite Hlen; exact Hl].
  - rewrite (typecode_ndarray_fallthrough d env a s Ha) in Hcall. exact (Hfp Hcall).
Qed.

(** X11: after [typeof_init] and any sequence of calls of the entry point,
    whatever the values, the resolver and the environments, every typecode
    stored in the hash table is non-negative and the lookup table still has
    its 180 slots. *)
Theorem caches_ok_after_any_calls (d : dispatcher) (calls : list (call_env * PyObject))
  (ts : list Z) (s' : world) :
  run_calls (typeof_typecode d) calls typeof_init = Some (ts, s') → caches_ok s'.
Proof.
  assert (Hgen : ∀ s ts s', caches_ok s →
            run_calls (typeof_typecode d) calls s = Some (ts, s') → caches_ok s').
  { clear ts s'. induction calls as [|[env val] rest IH]; intros s ts s' Hok Hrun.
    - injection Hrun as <- <-. exact Hok.
    - simpl in Hrun.
      destruct (typeof_typecode d env val s) as [[t s1]|] eqn:Hcall; [|discriminate].
      destruct (run_calls (typeof_typecode d) rest s1) as [[ts1 s2]|] eqn:Hrest;
        [|discriminate].
      injection Hrun as <- <-.
      exact (IH s1 ts1 s2 (typeof_typecode_keeps_caches_ok d env val s t s1 Hok Hcall) Hrest). }
  apply Hgen. split; [apply Forall_nil_2 | reflexivity].
Qed.

Lemma caches_ok_after_any_calls_witness :
  caches_ok (state_after (typeof_typecode disp_kind)
               [(env_at 0, PyNone); (env_at 0, NpArray ary_c); (env_at 64, PyInt 3)]
               typeof_init).
Proof.
  eapply (caches_ok_after_any_calls disp_kind
            [(env_at 0, PyNone); (env_at 0, NpArray ary_c); (env_at 64, PyInt 3)]).
  vm_compute. reflexivity.
Defined.

(** ** A repeated call at the same stack address *)

(** The test the hash table applies to an entry. *)
Definition entry_matches (stk : gmap Z (list Z)) (w : string_writer_t) (e : entry) : bool :=
  (key_hash e =? hash_writer stk w)%Z && compare_writer stk w e.

Lemma find_ext {A} (f g : A → bool) (l : list A) :
  (∀ x, f x = g x) → find f l = find g l.
Proof.
  intros Hfg. induction l as [|x l IH]; simpl; [reflexivity|].
  rewrite Hfg, IH. reflexivity.
Qed.

(** What the encoder leaves behind for a value whose stream fits inline:
    the writer still points to the frame and holds the stream. *)
Lemma local_encoding_inline env s val bs :
  fingerprint_bytes val = Some bs → length bs ≤ STATIC_BUF_SIZE →
  ∃ w, compute_fingerprint (heap env) (local_writer env s) val = Ok w
     ∧ sw_buf w = PtrStaticBuf (sp env)
     ∧ sw_n w = length bs
     ∧ take (length bs) (sw_static_buf w) = bs.
Proof.
  intros Hbs Hlen.
  destruct (fingerprint_inline (heap env) val bs (local_writer env s) Hbs
              (wf_static_local env s)) as (w & E & (Hb & _) & Hself & Hn & Hbytes);
    [simpl; lia|].
  exists w. split; [exact E|].
  simpl in Hself, Hn. rewrite Hself in Hb.
  unfold writer_bytes in Hbytes. rewrite Hb in Hbytes. simpl in Hbytes.
  rewrite Hn in Hbytes. auto.
Qed.

(** With the writer of the running call in the frame at [a], the test of
    an entry depends only on the bytes the writer holds. *)
Lemma entry_matches_same_bytes stk a w1 w2 sb1 sb2 bs e :
  sw_buf w1 = PtrStaticBuf a → sw_buf w2 = PtrStaticBuf a →
  sw_n w1 = length bs → sw_n w2 = length bs →
  take (length bs) sb1 = bs → take (length bs) sb2 = bs →
  entry_matches (<[a := sb2]> (<[a := sb1]> stk)) w2 e
  = entry_matches (<[a := sb1]> stk) w1 e.
Proof.
  intros Hb1 Hb2 Hn1 Hn2 Ht1 Ht2.
  unfold entry_matches, hash_writer, compare_writer, read_bytes.
  rewrite Hb1, Hb2, Hn1, Hn2. simpl deref.
  rewrite !lookup_insert_eq. simpl. rewrite Ht1, Ht2.
  f_equal. destruct (length bs =? sw_n (key e)); [|reflexivity]. simpl.
  destruct (sw_buf (key e)) as [a'| |]; simpl; try reflexivity.
  destruct (decide (a' = a)) as [->|Hne].
  - rewrite !lookup_insert_eq. simpl. rewrite Ht1, Ht2. reflexivity.
  - rewrite !lookup_insert_ne by congruence. reflexivity.
Qed.

(** The entry made from the writer of the running call passes its own test. *)
Lemma entry_matches_own_key stk w a typecode :
  entry_matches stk w
    (mk_entry (hash_writer stk (mk_writer a (sw_buf w) (sw_n w) (sw_allocated w)
                                          (sw_static_buf w)))
              (mk_writer a (sw_buf w) (sw_n w) (sw_allocated w) (sw_static_buf w))
              typecode) = true.
Proof.
  unfold entry_matches, hash_writer, compare_writer, read_bytes. simpl.
  rewrite Z.eqb_refl, Nat.eqb_refl. simpl.
  apply bool_decide_eq_true_2. reflexivity.
Qed.

(** X12: when a value whose fingerprint fits the inline buffer has been
    given a valid typecode by [typecode_using_fingerprint], a further call
    for the same value whose local writer is at the same stack address
    returns the same typecode from the hash table: the resolver is not
    asked and the table does not grow. *)
Theorem repeated_call_at_same_frame_hits (d d2 : dispatcher) (env env2 : call_env)
  (val : PyObject) (bs : list Z) (s : world) (t : Z) (s1 : world) :
  fingerprint_bytes val = Some bs → length bs ≤ STATIC_BUF_SIZE →
  sp env2 = sp env →
  typecode_using_fingerprint d env val s = Some (t, s1) → (0 ≤ t)%Z →
  ∃ s2, typecode_using_fingerprint d2 env2 val s1 = Some (t, s2)
        ∧ resolver_log s2 = resolver_log s1
        ∧ fingerprint_hashtable s2 = fingerprint_hashtable s1.
Proof.
  intros Hbs Hlen Hsp Hcall Hpos.
  destruct (local_encoding_inline env s val bs Hbs Hlen) as (w1 & E1 & Hb1 & Hn1 & Ht1).
  unfold typecode_using_fingerprint in Hcall. cbv zeta in Hcall. revert Hcall.
  destruct (match fingerprint_hashtable s with
            | Some ht => Some ht
            | None => if hashtable_new_fails env then None else Some []
            end) as [ht|]; [|intros [= <- ?]; lia].
  intros Hcall.
  change (local_writer env (set_hashtable s (Some ht))) with (local_writer env s) in Hcall.
  rewrite E1 in Hcall. cbn zeta in Hcall.
  change (stack (set_hashtable s (Some ht))) with (stack s) in Hcall.
  (* the state the second call starts from, in both cases, has a table
     [ht1] and the frame of the first call in its stack *)
  assert (Hs1 : ∃ ht1, fingerprint_hashtable s1 = Some ht1
                  ∧ stack s1 = <[sp env := sw_static_buf w1]> (stack s)
                  ∧ data <$> find (entry_matches (stack s1) w1) ht1 = Some t).
  { destruct (_Py_HASHTABLE_GET _ ht w1) as [tc|] eqn:Hget.
    - injection Hcall as <- <-. exists ht. repeat split. exact Hget.
    - unfold typecode_fallback_keep_ref in Hcall.
      match type of Hcall with
      | context [_typecode_fallback d val true ?st] =>
          pose proof (fallback_state d val true st) as (Hstk & Htab & _ & _);
          destruct (_typecode_fallback d val true st) as [tc sA]
      end.
      simpl in Hstk, Htab. cbn beta iota zeta in Hcall. revert Hcall.
      destruct (Z.leb_spec 0 tc); [|intros [= <- ?]; lia].
      destruct (key_malloc env) as [a|]; [|intros [= <- ?]; lia].
      destruct (hashtable_set_fails env); [intros [= <- ?]; lia|].
      intros [= <- <-]. eexists. split; [reflexivity|].
      split; [exact Hstk|].
      simpl. unfold _Py_HASHTABLE_SET. simpl. rewrite Hstk.
      rewrite entry_matches_own_key. reflexivity. }
  destruct Hs1 as (ht1 & Htab1 & Hstk1 & Hfind1).
  destruct (local_encoding_inline env2 s1 val bs Hbs Hlen) as (w2 & E2 & Hb2 & Hn2 & Ht2).
  rewrite Hsp in Hb2.
  unfold typecode_using_fingerprint. cbv zeta. rewrite Htab1.
  change (local_writer env2 (set_hashtable s1 (Some ht1))) with (local_writer env2 s1).
  rewrite E2. cbn zeta.
  change (stack (set_hashtable s1 (Some ht1))) with (stack s1).
  unfold _Py_HASHTABLE_GET.
  change (λ e, (key_hash e =? hash_writer ?stk ?w)%Z && compare_writer ?stk ?w e)
    with (entry_matches stk w).
  rewrite Hsp.
  rewrite (find_ext _ (entry_matches (stack s1) w1)).
  - rewrite Hfind1. eexists. split; [reflexivity|]. split; [reflexivity|].
    reflexivity.
  - intros e. rewrite Hstk1.
    apply (entry_matches_same_bytes (stack s) (sp env) w1 w2 _ _ bs e); assumption.
Qed.

Lemma repeated_call_at_same_frame_hits_witness :
  ∃ s2, typecode_using_fingerprint disp_invalid (env_at 0) (PyTuple [PyInt 1; PyFloat])
          (state_after (typecode_using_fingerprint disp_kind)
             [(env_at 0, PyTuple [PyInt 1; PyFloat])] typeof_init)
        = Some (9%Z, s2)
        ∧ resolver_log s2 = [(PyTuple [PyInt 1; PyFloat], true)]
        ∧ length (default [] (fingerprint_hashtable s2)) = 1.
Proof.
  destruct (repeated_call_at_same_frame_hits disp_kind disp_invalid (env_at 0) (env_at 0)
              (PyTuple [PyInt 1; PyFloat]) [40; 105; 102; 41]%Z typeof_init 9%Z
              (state_after (typecode_using_fingerprint disp_kind)
                 [(env_at 0, PyTuple [PyInt 1; PyFloat])] typeof_init)
              eq_refl)
    as (s2 & E & Hlog & Htab).
  - vm_compute. lia.
  - reflexivity.
  - vm_compute. reflexivity.
  - lia.
  - exists s2. split; [exact E|]. rewrite Hlog, Htab. split; vm_compute; reflexivity.
Defined.

(** ** The lookup table of arrays *)

(** The slot of an array: rank minus one, layout index, element kind
    index. *)
Definition slot_of (a : PyArrayObject) : Z * Z * Z :=
  (PyArray_NDIM a - 1, ndarray_layout a, dtype_num_to_typecode (PyArray_TYPE a))%Z.

Definition slot_index (a : PyArrayObject) : nat :=
  arycode_index (PyArray_NDIM a - 1) (ndarray_layout a)
                (dtype_num_to_typecode (PyArray_TYPE a)).

Lemma slot_ranges a :
  fast_path_applicable a = true →
  (0 ≤ PyArray_NDIM a - 1 < N_NDIM)%Z
  ∧ (0 ≤ ndarray_layout a < N_LAYOUT)%Z
  ∧ (0 ≤ dtype_num_to_typecode (PyArray_TYPE a) < N_DTYPES)%Z.
Proof.
  unfold fast_path_applicable. intros Ha.
  apply andb_prop in Ha as [Hr Hk]. apply andb_prop in Hr as [H1 H5].
  apply Z.leb_le in H1, H5.
  destruct (dtype_num_to_typecode_range _ Hk) as [Hd _].
  pose proof (ndarray_layout_range a). unfold N_NDIM. repeat split; lia || apply Hd.
Qed.

(** Slots do not overlap. *)
Lemma slot_index_inj (a1 a2 : PyArrayObject) :
  fast_path_applicable a1 = true → fast_path_applicable a2 = true →
  slot_index a1 = slot_index a2 → slot_of a1 = slot_of a2.
Proof.
  intros H1 H2 Hidx.
  destruct (slot_ranges a1 H1) as (Hr1 & Hl1 & Hd1).
  destruct (slot_ranges a2 H2) as (Hr2 & Hl2 & Hd2).
  unfold slot_index, arycode_index, slot_of in *.
  unfold N_NDIM, N_LAYOUT, N_DTYPES in *.
  apply Z2Nat.inj in Hidx; [|lia|lia].
  assert (PyArray_NDIM a1 - 1 = PyArray_NDIM a2 - 1)%Z by lia.
  assert (ndarray_layout a1 = ndarray_layout a2) by lia.
  assert (dtype_num_to_typecode (PyArray_TYPE a1)
          = dtype_num_to_typecode (PyArray_TYPE a2)) by lia.
  congruence.
Qed.

(** X13: two arrays that the table handles use the same element of
    [cached_arycode] exactly when they have the same rank, the same layout
    index and the same element kind index: slots do not overlap, and the
    element is inside the array. *)
Theorem lookup_table_slots_are_disjoint (a1 a2 : PyArrayObject) :
  fast_path_applicable a1 = true → fast_path_applicable a2 = true →
  (slot_index a1 = slot_index a2 ↔ slot_of a1 = slot_of a2)
  ∧ slot_index a1 < Z.to_nat (N_NDIM * N_LAYOUT * N_DTYPES).
Proof.
  intros H1 H2. split; [split|].
  - apply slot_index_inj; assumption.
  - unfold slot_of, slot_index. intros [= -> -> ->]. reflexivity.
  - apply arycode_index_in_bounds. exact H1.
Qed.

Lemma lookup_table_slots_are_disjoint_witness :
  (slot_index ary_c = slot_index (mk_array 1 true true true true float64_descr)
   ↔ slot_of ary_c = slot_of (mk_array 1 true true true true float64_descr))
  ∧ slot_index ary_c < Z.to_nat (N_NDIM * N_LAYOUT * N_DTYPES).
Proof.
  apply lookup_table_slots_are_disjoint; reflexivity.
Defined.

(** X14: once a call has obtained a typecode other than [-1] for an array
    the table handles, every later call for an array of the same slot
    returns that typecode from the table, whatever the resolver would say
    now, and leaves the whole state as it is; the slots of other arrays
    keep their contents. *)
Theorem lookup_table_hit_after_fill (d : dispatcher) (env : call_env)
  (a : PyArrayObject) (s : world) (t : Z) (s1 : world) :
  fast_path_applicable a = true →
  typeof_typecode d env (NpArray a) s = Some (t, s1) → t ≠ (-1)%Z →
  (∀ d2 env2 a2, fast_path_applicable a2 = true → slot_of a2 = slot_of a →
     typeof_typecode d2 env2 (NpArray a2) s1 = Some (t, s1))
  ∧ (∀ a3, fast_path_applicable a3 = true → slot_of a3 ≠ slot_of a →
       cached_arycode s1 !! slot_index a3 = cached_arycode s !! slot_index a3).
Proof.
  intros Ha Hcall Ht. simpl in Hcall.
  rewrite (typecode_ndarray_fast d env a s Ha) in Hcall. fold (slot_index a) in Hcall.
  destruct (cached_arycode s !! slot_index a) as [v|] eqn:Hv; [|discriminate].
  assert (Hs1 : cached_arycode s1 !! slot_index a = Some t
                ∧ ∀ i, i ≠ slot_index a → cached_arycode s1 !! i = cached_arycode s !! i).
  { revert Hcall. destruct (Z.eqb_spec v (-1)).
    - unfold typecode_fallback_keep_ref.
      pose proof (fallback_state d (NpArray a) true s) as (_ & _ & Hc & _).
      destruct (_typecode_fallback d (NpArray a) true s) as [tc sA].
      simpl in Hc. intros [= <- <-]. simpl. rewrite Hc. split.
      + apply list_lookup_insert_eq. apply lookup_lt_Some in Hv. exact Hv.
      + intros i Hi. apply list_lookup_insert_ne. congruence.
    - intros [= <- <-]. split; [exact Hv | reflexivity]. }
  destruct Hs1 as [Hslot Hother]. split.
  - intros d2 env2 a2 Ha2 Hsame. simpl.
    rewrite (typecode_ndarray_fast d2 env2 a2 s1 Ha2). fold (slot_index a2).
    assert (Hidx : slot_index a2 = slot_index a).
    { unfold slot_of in Hsame. injection Hsame as E1 E2 E3.
      unfold slot_index. rewrite E1, E2, E3. reflexivity. }
    rewrite Hidx, Hslot.
    destruct (Z.eqb_spec t (-1)); [contradiction | reflexivity].
  - intros a3 Ha3 Hdiff. apply Hother. intros Hidx.
    apply Hdiff. apply slot_index_inj; assumption.
Qed.

Lemma lookup_table_hit_after_fill_witness :
  typeof_typecode disp_invalid (env_at 8) (NpArray ary_c)
    (state_after (typeof_typecode disp_kind) [(env_at 0, NpArray ary_c)] typeof_init)
  = Some (167%Z,
          state_after (typeof_typecode disp_kind) [(env_at 0, NpArray ary_c)] typeof_init).
Proof.
  refine (proj1 (lookup_table_hit_after_fill disp_kind (env_at 0) ary_c typeof_init 167%Z
                   _ eq_refl _ _) disp_invalid (env_at 8) ary_c eq_refl eq_refl).
  - vm_compute. reflexivity.
  - discriminate.
Defined.

(** X15: when a call for an array the table handles returns [-1] (the
    resolver failed, or its code was [-1]), the table is exactly as before:
    the slot still reads as unset. *)
Theorem lookup_table_unchanged_on_failure (d : dispatcher) (env : call_env)
  (a : PyArrayObject) (s : world) (s1 : world) :
  fast_path_applicable a = true →
  typeof_typecode d env (NpArray a) s = Some ((-1)%Z, s1) →
  cached_arycode s1 = cached_arycode s
  ∧ cached_arycode s1 !! slot_index a = Some (-1)%Z
  ∧ fingerprint_hashtable s1 = fingerprint_hashtable s.
Proof.
  intros Ha Hcall. simpl in Hcall.
  rewrite (typecode_ndarray_fast d env a s Ha) in Hcall. fold (slot_index a) in Hcall.
  destruct (cached_arycode s !! slot_index a) as [v|] eqn:Hv; [|discriminate].
  revert Hcall. destruct (Z.eqb_spec v (-1)) as [->|Hne].
  - unfold typecode_fallback_keep_ref.
    pose proof (fallback_state d (NpArray a) true s) as (_ & Htab & Hc & _).
    destruct (_typecode_fallback d (NpArray a) true s) as [tc sA].
    simpl in Hc, Htab. intros [= -> <-]. simpl. rewrite Hc, Htab.
    rewrite (list_insert_id _ _ _ Hv). auto.
  - intros [= -> <-]. contradiction.
Qed.

Lemma lookup_table_unchanged_on_failure_witness :
  cached_arycode
    (state_after (typeof_typecode (mk_dispatcher (λ _, None))) [(env_at 0, NpArray ary_c)]
       typeof_init)
  = cached_arycode typeof_init.
Proof.
  refine (proj1 (lookup_table_unchanged_on_failure (mk_dispatcher (λ _, None)) (env_at 0)
                   ary_c typeof_init _ eq_refl _)).
  vm_compute. reflexivity.
Defined.

(** ** Allocation failures *)

(** X16: an allocation failure before the resolver is reached makes
    [typecode_using_fingerprint] return [-1] with [MemoryError] set, without
    asking the resolver and without inserting anything: both when the hash
    table cannot be created and when the writer cannot grow. *)
Theorem allocation_failure_is_reported (d : dispatcher) (env : call_env)
  (val : PyObject) (s : world) :
  (fingerprint_hashtable s = None → hashtable_new_fails env = true →
   typecode_using_fingerprint d env val s = Some ((-1)%Z, set_err s (Some MemoryError)))
  ∧ (∀ w', is_Some (fingerprint_hashtable s) ∨ hashtable_new_fails env = false →
       compute_fingerprint (heap env) (local_writer env s) val = Raise MemoryError w' →
       ∃ s', typecode_using_fingerprint d env val s = Some ((-1)%Z, s')
         ∧ err s' = Some MemoryError
         ∧ resolver_log s' = resolver_log s
         ∧ fingerprint_hashtable s' = Some (default [] (fingerprint_hashtable s))
         ∧ cached_arycode s' = cached_arycode s).
Proof.
  split.
  - intros Hnone Hfail. unfold typecode_using_fingerprint. rewrite Hnone, Hfail. reflexivity.
  - intros w' Hc E. unfold typecode_using_fingerprint. cbv zeta.
    assert (Hcreated :
      match fingerprint_hashtable s with
      | Some ht => Some ht
      | None => if hashtable_new_fails env then None else Some []
      end = Some (default [] (fingerprint_hashtable s))).
    { destruct (fingerprint_hashtable s); [reflexivity|].
      destruct Hc as [[? Hc]|Hc]; [discriminate | rewrite Hc; reflexivity]. }
    rewrite Hcreated.
    change (local_writer env (set_hashtable s _)) with (local_writer env s).
    rewrite E. eexists. split; [reflexivity|]. repeat split.
Qed.

(** An environment whose allocator always fails. *)
Definition env_no_memory : call_env :=
  mk_env 0 (mk_heap (λ _, true) (λ _, 0%Z)) false (Some 4096%Z) false.

Lemma allocation_failure_is_reported_witness :
  ∃ s', typecode_using_fingerprint disp_kind env_no_memory (tuple39 1) typeof_init
        = Some ((-1)%Z, s')
    ∧ err s' = Some MemoryError
    ∧ resolver_log s' = []
    ∧ fingerprint_hashtable s' = Some []
    ∧ cached_arycode s' = cached_arycode typeof_init.
Proof.
  refine (proj2 (allocation_failure_is_reported disp_kind env_no_memory (tuple39 1)
                   typeof_init) _ (or_intror eq_refl) _).
  vm_compute. reflexivity.
Defined.

(** ** The hash of a fingerprint *)

Lemma lxor_below_pow2 a b n :
  (0 ≤ n → 0 ≤ a < 2 ^ n → 0 ≤ b < 2 ^ n → 0 ≤ Z.lxor a b < 2 ^ n)%Z.
Proof.
  intros Hn [Ha0 Ha] [Hb0 Hb].
  assert (Hnn : (0 ≤ Z.lxor a b)%Z) by (apply Z.lxor_nonneg; lia).
  split; [exact Hnn|].
  destruct (Z.eq_dec (Z.lxor a b) 0) as [->|Hz]; [apply Z.pow_pos_nonneg; lia|].
  assert (Hpos : (0 < Z.lxor a b)%Z) by lia.
  apply (proj2 (Z.log2_lt_pow2 _ _ Hpos)).
  apply (Z.le_lt_trans _ (Z.max (Z.log2 a) (Z.log2 b)));
    [apply Z.log2_lxor; assumption|].
  assert (Hn0 : (0 < n)%Z).
  { destruct (Z.eq_dec n 0) as [->|]; [|lia].
    change (2 ^ 0)%Z with 1%Z in Ha, Hb.
    assert (a = 0%Z) by lia. assert (b = 0%Z) by lia. subst a b.
    exfalso. apply Hz. reflexivity. }
  apply Z.max_lub_lt.
  - destruct (Z.eq_dec a 0) as [->|].
    + simpl. exact Hn0.
    + assert (Ha' : (0 < a)%Z) by lia. apply (proj1 (Z.log2_lt_pow2 _ _ Ha')). exact Ha.
  - destruct (Z.eq_dec b 0) as [->|].
    + simpl. exact Hn0.
    + assert (Hb' : (0 < b)%Z) by lia. apply (proj1 (Z.log2_lt_pow2 _ _ Hb')). exact Hb.
Qed.

Lemma hash_loop_range (bytes : list Z) : ∀ x,
  (0 ≤ x < 2 ^ 64)%Z →
  (0 ≤ fold_left (λ x c, to_uhash (Z.lxor (1000003 * x) c)) bytes x < 2 ^ 64)%Z.
Proof.
  induction bytes as [|c bytes IH]; intros x Hx; simpl; [exact Hx|].
  apply IH. unfold to_uhash. apply Z.mod_pos_bound. lia.
Qed.

(** X17: the hash of a fingerprint is an unsigned 64-bit value that is
    never [(Py_uhash_t) -1]; the hash of the empty fingerprint is 0. *)
Theorem hash_bytes_range (bytes : list Z) :
  (Z.of_nat (length bytes) < 2 ^ 64)%Z →
  (0 ≤ hash_bytes bytes < 2 ^ 64 - 1)%Z ∧ hash_bytes [] = 0%Z.
Proof.
  intros Hlen. split; [|reflexivity].
  unfold hash_bytes. destruct bytes as [|p0 rest]; [lia|].
  set (x := fold_left _ _ _).
  assert (Hx : (0 ≤ x < 2 ^ 64)%Z).
  { apply hash_loop_range. unfold to_uhash. apply Z.mod_pos_bound. lia. }
  assert (Hr : (0 ≤ Z.lxor x (Z.of_nat (length (p0 :: rest))) < 2 ^ 64)%Z).
  { apply lxor_below_pow2; lia. }
  destruct (Z.eqb_spec (Z.lxor x (Z.of_nat (length (p0 :: rest)))) (2 ^ 64 - 1)); lia.
Qed.

Lemma hash_bytes_range_witness :
  (0 ≤ hash_bytes [OP_NONE] < 2 ^ 64 - 1)%Z ∧ hash_bytes [] = 0%Z.
Proof.
  apply hash_bytes_range. simpl. lia.
Defined.

(** ** The element kind index *)

(** X18: [dtype_num_to_typecode] returns [-1] or an index below 12, and
    two type numbers with the same index other than [-1] are equal. *)
Theorem dtype_num_to_typecode_index (t1 t2 : Z) :
  (dtype_num_to_typecode t1 = (-1)%Z ∨ (0 ≤ dtype_num_to_typecode t1 < N_DTYPES)%Z)
  ∧ (dtype_num_to_typecode t1 = dtype_num_to_typecode t2 →
     dtype_num_to_typecode t1 ≠ (-1)%Z → t1 = t2).
Proof.
  unfold dtype_num_to_typecode, N_DTYPES.
  repeat (match goal with |- context [(t1 =? ?c)%Z] => destruct (Z.eqb_spec t1 c) end);
    (split; [first [left; reflexivity | right; lia]|]);
    try (intros _ Hne; exfalso; apply Hne; reflexivity);
    subst t1;
    repeat (match goal with |- context [(t2 =? ?c)%Z] => destruct (Z.eqb_spec t2 c) end);
    intros E _; first [congruence | discriminate E].
Qed.

Lemma dtype_num_to_typecode_index_witness : NPY_FLOAT64 = NPY_DOUBLE.
Proof.
  apply (proj2 (dtype_num_to_typecode_index NPY_FLOAT64 NPY_DOUBLE)).
  - reflexivity.
  - discriminate.
Defined.

(** * Initialization *)

(** The statics [typeof_init] fills besides the caches: [BASIC_TYPECODES]
    (with the index of the next element to fill) and [tc_intp]. *)
Record basic_types := mk_basic {
  BASIC_TYPECODES : list Z;
  tc_intp : Z
}.

(** What [typeof_init] does not decide: whether [import_array()], the two
    [PyDict_New()] and [PyString_InternFromString()] succeed. *)
Record init_env := mk_init_env {
  import_array_ok : bool;
  dict_new_ok : bool;
  intern_ok : bool
}.

(** The names [UNWRAP_TYPE] is applied to, in order. *)
Definition BASIC_NAMES : list string :=
  ["int8"; "int16"; "int32"; "int64"; "uint8"; "uint16"; "uint32"; "uint64";
   "float32"; "float64"; "complex64"; "complex128"]%string.

(** [UNWRAP_TYPE(S)] for each name in turn: a missing name ends the
    function (the flag is [false]); otherwise [tc_S = PyLong_AsLong(tmpobj)]
    is stored in [BASIC_TYPECODES[index++]].  The dictionary maps a name to
    the C long its value converts to. *)
Fixpoint unwrap_types (dict : gmap string Z) (names : list string)
  (basic : list Z) (index : nat) : bool * list Z :=
  match names with
  | [] => (true, basic)
  | name :: rest =>
      match dict !! name with
      | None => (false, basic)
      | Some v => unwrap_types dict rest (<[index := to_int v]> basic) (S index)
      end
  end.

(** The state of the statics before [typeof_init]: C zero-initializes
    them. *)
Definition static_basic : basic_types := mk_basic (replicate 12 0%Z) 0.
Definition static_world : world :=
  mk_world ∅ None (replicate (Z.to_nat (N_NDIM * N_LAYOUT * N_DTYPES)) 0%Z) None [].

(** [typeof_init(self, args)] with [dict = args[0]]: whether it returns
    [None] rather than [NULL], and the statics it leaves in either case.
    [sizeof(void * )] is 8, so [tc_intp] is [tc_int64]. *)
Definition typeof_init_call (ienv : init_env) (dict : gmap string Z)
  (b : basic_types) (s : world) : bool * basic_types * world :=
  if negb (import_array_ok ienv) then (false, b, s)
  else
    match unwrap_types dict BASIC_NAMES (BASIC_TYPECODES b) 0 with
    | (false, basic) => (false, mk_basic basic (tc_intp b), s)
    | (true, basic) =>
        let tc_int64 := default 0%Z (to_int <$> dict !! "int64"%string) in
        let b := mk_basic basic tc_int64 in
        if negb (dict_new_ok ienv) then (false, b, s)
        else
          (* memset(cached_arycode, 0xFF, sizeof(cached_arycode)) *)
          let s := set_arycode s (replicate (length (cached_arycode s)) (-1)%Z) in
          if negb (intern_ok ienv) then (false, b, s)
          else (true, b, s)
    end.

(** The numpy type number each name stands for, as the cases of
    [dtype_num_to_typecode] list them. *)
Definition BASIC_KINDS : list (string * Z) :=
  [("int8", NPY_INT8); ("int16", NPY_INT16); ("int32", NPY_INT32); ("int64", NPY_INT64);
   ("uint8", NPY_UINT8); ("uint16", NPY_UINT16); ("uint32", NPY_UINT32);
   ("uint64", NPY_UINT64); ("float32", NPY_FLOAT32); ("float64", NPY_FLOAT64);
   ("complex64", NPY_COMPLEX64); ("complex128", NPY_COMPLEX128)]%string.

Definition init_ok : init_env := mk_init_env true true true.

Lemma unwrap_types_length dict names : ∀ basic index,
  length (unwrap_types dict names basic index).2 = length basic.
Proof.
  induction names as [|name rest IH]; intros basic index; simpl; [reflexivity|].
  destruct (dict !! name); [|reflexivity]. rewrite IH, length_insert. reflexivity.
Qed.

(** A missing name stops the unwrapping. *)
Lemma unwrap_types_missing dict names : ∀ basic index name,
  name ∈ names → dict !! name = None → (unwrap_types dict names basic index).1 = false.
Proof.
  induction names as [|n rest IH]; intros basic index name Hin Hnone.
  - inversion Hin.
  - simpl. destruct (decide (name = n)) as [->|Hne].
    + rewrite Hnone. reflexivity.
    + destruct (dict !! n); [|reflexivity].
      apply (IH _ _ name); [|exact Hnone].
      apply elem_of_cons in Hin as [?|?]; [contradiction | assumption].
Qed.

(** X19: [typeof_init] succeeds only if the dictionary has all twelve
    names.  When it succeeds (from the zero-initialized statics),
    [BASIC_TYPECODES] holds, at the index [dtype_num_to_typecode] gives for
    each kind, the code the dictionary has under the name of that kind,
    [tc_intp] is the code of [int64], and the caches are in the state
    [typeof_init]: in particular every slot of the lookup table, 0 before,
    is [-1]. *)
Theorem typeof_init_call_fills_statics (ienv : init_env) (dict : gmap string Z) :
  (∀ name, name ∈ BASIC_NAMES → dict !! name = None →
     (typeof_init_call ienv dict static_basic static_world).1.1 = false)
  ∧ (∀ b s, typeof_init_call ienv dict static_basic static_world = (true, b, s) →
       s = typeof_init
       ∧ tc_intp b = default 0%Z (to_int <$> dict !! "int64"%string)
       ∧ ∀ name t, (name, t) ∈ BASIC_KINDS →
           BASIC_TYPECODES b !! Z.to_nat (dtype_num_to_typecode t)
           = to_int <$> dict !! name).
Proof.
  split.
  - intros name Hin Hnone. unfold typeof_init_call.
    destruct (import_array_ok ienv); [|reflexivity]. cbn [negb].
    pose proof (unwrap_types_missing dict BASIC_NAMES (BASIC_TYPECODES static_basic) 0
                  name Hin Hnone) as Hm.
    destruct (unwrap_types dict BASIC_NAMES (BASIC_TYPECODES static_basic) 0) as [[|] basic];
      [discriminate | reflexivity].
  - intros b s. unfold typeof_init_call.
    destruct (import_array_ok ienv); [|discriminate]. cbn [negb].
    unfold BASIC_NAMES. cbn [unwrap_types].
    repeat (match goal with
            | |- context [dict !! ?n] =>
                lazymatch goal with
                | |- context [match dict !! n with _ => _ end] =>
                    let v := fresh "v" in
                    destruct (dict !! n) as [v|] eqn:?; [|discriminate]
                end
            end).
    destruct (dict_new_ok ienv); [|discriminate].
    destruct (intern_ok ienv); [|discriminate]. cbn [negb].
    intros [= <- <-]. split; [reflexivity|]. split; [reflexivity|].
    intros name t Hin. unfold BASIC_KINDS in Hin.
    repeat (apply elem_of_cons in Hin as [Heq|Hin];
            [injection Heq as -> ->;
             match goal with
             | H : dict !! ?n = Some _ |- context [dict !! ?n] => rewrite H
             end; reflexivity|]).
    inversion Hin.
Qed.

(** A dictionary giving each kind its type number plus 100. *)
Definition example_dict : gmap string Z :=
  list_to_map ((λ p, (p.1, p.2 + 100)%Z) <$> BASIC_KINDS).

Lemma typeof_init_call_fills_statics_witness :
  (typeof_init_call init_ok example_dict static_basic static_world).2 = typeof_init
  ∧ tc_intp (typeof_init_call init_ok example_dict static_basic static_world).1.2
    = default 0%Z (to_int <$> example_dict !! "int64"%string)
  ∧ ∀ name t, (name, t) ∈ BASIC_KINDS →
      BASIC_TYPECODES (typeof_init_call init_ok example_dict static_basic static_world).1.2
        !! Z.to_nat (dtype_num_to_typecode t)
      = to_int <$> example_dict !! name.
Proof.
  apply (proj2 (typeof_init_call_fills_statics init_ok example_dict)).
  vm_compute. reflexivity.
Defined.

(** X20: before [typeof_init] has run, the zero-initialized lookup table
    answers typecode 0 for every array it handles, without asking the
    resolver. *)
Theorem uninitialized_table_answers_zero (d : dispatcher) (env : call_env)
  (a : PyArrayObject) :
  fast_path_applicable a = true →
  typeof_typecode d env (NpArray a) static_world = Some (0%Z, static_world).
Proof.
  intros Ha. simpl. rewrite (typecode_ndarray_fast d env a static_world Ha).
  pose proof (arycode_index_in_bounds a Ha) as Hidx.
  unfold static_world at 1. cbn [cached_arycode].
  rewrite lookup_replicate_2 by exact Hidx. reflexivity.
Qed.

Lemma uninitialized_table_answers_zero_witness :
  typeof_typecode disp_kind (env_at 0) (NpArray ary_c) static_world
  = Some (0%Z, static_world).
Proof.
  apply uninitialized_table_answers_zero. reflexivity.
Defined.

(** ** Identities and kinds in the fingerprint *)

Lemma le64_inj v1 v2 :
  (0 ≤ v1 < 2 ^ 64)%Z → (0 ≤ v2 < 2 ^ 64)%Z → le64 v1 = le64 v2 → v1 = v2.
Proof.
  intros H1 H2 E. apply (f_equal le_decode) in E. rewrite !le64_decode in E.
  rewrite !Z.mod_small in E by assumption. exact E.
Qed.

(** X21: two structured (void) dtype objects at different addresses get
    different fingerprints, whatever their fields: the encoder writes the
    tag, the type number and the eight bytes of the address. *)
Theorem structured_dtype_identity (H1 H2 : heap_oracle) (d1 d2 : PyArray_Descr) :
  type_num d1 = NPY_VOID → type_num d2 = NPY_VOID →
  (0 ≤ descr_addr d1 < 2 ^ 64)%Z → (0 ≤ descr_addr d2 < 2 ^ 64)%Z →
  typeof_compute_fingerprint H1 (NpDescr d1)
  = FpBytes ([OP_NP_DTYPE; NPY_VOID] ++ le64 (descr_addr d1))
  ∧ (descr_addr d1 ≠ descr_addr d2 →
     typeof_compute_fingerprint H1 (NpDescr d1) ≠ typeof_compute_fingerprint H2 (NpDescr d2)).
Proof.
  intros Ht1 Ht2 Ha1 Ha2.
  assert (E : ∀ H d, type_num d = NPY_VOID →
            typeof_compute_fingerprint H (NpDescr d)
            = FpBytes ([OP_NP_DTYPE; NPY_VOID] ++ le64 (descr_addr d))).
  { intros H d Ht. apply stream_when_inline.
    - simpl. unfold dtype_bytes. rewrite Ht. reflexivity.
    - simpl. unfold STATIC_BUF_SIZE. lia. }
  split; [apply E; exact Ht1|].
  intros Hne. rewrite (E H1 d1 Ht1), (E H2 d2 Ht2). intros [= Heq].
  apply Hne. apply le64_inj; [assumption | assumption |].
  unfold le64. congruence.
Qed.

Lemma structured_dtype_identity_witness :
  typeof_compute_fingerprint heap_zero (NpDescr (mk_descr 4096 NPY_VOID true None))
  ≠ typeof_compute_fingerprint heap_zero (NpDescr (mk_descr 8192 NPY_VOID true None)).
Proof.
  apply (proj2 (structured_dtype_identity heap_zero heap_zero
                  (mk_descr 4096 NPY_VOID true None) (mk_descr 8192 NPY_VOID true None)
                  eq_refl eq_refl ltac:(simpl; lia) ltac:(simpl; lia))).
  discriminate.
Defined.

(** X22: two objects exposing the same buffer view but of different types
    get different fingerprints (format strings of up to 24 characters, so
    that the fingerprint fits inline): the last eight bytes are the address
    of the type. *)
Theorem buffer_type_identity (H1 H2 : heap_oracle) (b1 b2 : buffer_object)
  (view : Py_buffer) :
  buffer_view b1 = Some view → buffer_view b2 = Some view →
  length (default [] (view_format view)) ≤ 24 →
  (0 ≤ ob_type b1 < 2 ^ 64)%Z → (0 ≤ ob_type b2 < 2 ^ 64)%Z →
  ob_type b1 ≠ ob_type b2 →
  typeof_compute_fingerprint H1 (PyBufferObj b1)
  ≠ typeof_compute_fingerprint H2 (PyBufferObj b2).
Proof.
  intros Hv1 Hv2 Hfmt Ht1 Ht2 Hne.
  assert (E : ∀ H b, buffer_view b = Some view →
            typeof_compute_fingerprint H (PyBufferObj b)
            = FpBytes (([OP_BUFFER] ++ le32 (to_uint (view_ndim view))
                ++ [if view_c_contiguous view then CH_C
                    else if view_f_contiguous view then CH_F else CH_A;
                    if view_readonly view then CH_R else CH_W]
                ++ (to_uchar <$> (default [] (view_format view) ++ [0%Z])))
                ++ le64 (ob_type b))).
  { intros H b Hv. apply stream_when_inline.
    - simpl. unfold buffer_bytes. rewrite Hv. simpl. reflexivity.
    - repeat (progress (simpl; rewrite ?length_app, ?length_fmap)).
      unfold STATIC_BUF_SIZE. lia. }
  rewrite (E H1 b1 Hv1), (E H2 b2 Hv2).
  intros [= Heq]. apply app_inv_head in Heq.
  apply Hne. apply le64_inj; assumption.
Qed.

(** A buffer object of type [t] whose writable view is one-dimensional,
    contiguous, with format ["d"]. *)
Definition double_buffer (t : Z) : buffer_object :=
  mk_bufobj (Some (mk_view 1 true true false (Some [100%Z]))) None t.

Lemma buffer_type_identity_witness :
  typeof_compute_fingerprint heap_zero (PyBufferObj (double_buffer 4096))
  ≠ typeof_compute_fingerprint heap_ff (PyBufferObj (double_buffer 8192)).
Proof.
  apply (buffer_type_identity heap_zero heap_ff (double_buffer 4096) (double_buffer 8192)
           (mk_view 1 true true false (Some [100%Z])) eq_refl eq_refl);
    simpl; lia || discriminate.
Defined.

(** X23: the fingerprint of an array of an elementary kind has eight
    bytes: the array tag, the rank as a little-endian 32-bit integer, the
    layout character, the mutability character and the numpy type number
    of the element kind. *)
Theorem elementary_array_fingerprint (H : heap_oracle) (a : PyArrayObject) :
  is_elementary_kind (PyArray_TYPE a) = true →
  ∃ rank, typeof_compute_fingerprint H (NpArray a)
          = FpBytes ([OP_NP_ARRAY] ++ rank
                     ++ [array_layout_char a;
                         if PyArray_ISWRITEABLE a then CH_W else CH_R;
                         PyArray_TYPE a])
    ∧ length rank = 4
    ∧ le_decode rank = (PyArray_NDIM a mod 2 ^ 32)%Z.
Proof.
  intros Hk. exists (le32 (to_uint (PyArray_NDIM a))).
  split; [|split; [reflexivity|]].
  - apply stream_when_inline; [|simpl; unfold STATIC_BUF_SIZE; lia].
    assert (Ht : to_uchar (to_char (type_num (descr a))) = type_num (descr a)).
    { revert Hk. unfold is_elementary_kind, PyArray_TYPE.
      repeat (match goal with
              | |- context [(type_num (descr a) =? ?c)%Z] =>
                  destruct (Z.eqb_spec (type_num (descr a)) c) as [->|]
              end; [reflexivity|]).
      discriminate. }
    simpl. unfold dtype_bytes.
    destruct (dtype_num_to_typecode_range _ Hk) as [_ Hlt].
    unfold PyArray_TYPE in *. apply Z.ltb_lt in Hlt. rewrite Hlt, Ht.
    reflexivity.
  - rewrite le32_decode. unfold to_uint. apply Z.mod_mod. lia.
Qed.

Lemma elementary_array_fingerprint_witness :
  ∃ rank, typeof_compute_fingerprint heap_zero (NpArray ary_rank8)
          = FpBytes ([OP_NP_ARRAY] ++ rank ++ [CH_C; CH_W; NPY_FLOAT64])
    ∧ length rank = 4
    ∧ le_decode rank = 8%Z.
Proof.
  exact (elementary_array_fingerprint heap_zero ary_rank8 eq_refl).
Defined.

(** ** Resolver calls and retained references *)

Lemma using_fingerprint_resolver_calls d env val s t s' :
  typecode_using_fingerprint d env val s = Some (t, s') →
  (resolver_log s' = resolver_log s ∨ ∃ b, resolver_log s' = (val, b) :: resolver_log s)
  ∧ (default [] (fingerprint_hashtable s') ≠ default [] (fingerprint_hashtable s) →
     resolver_log s' = (val, true) :: resolver_log s).
Proof.
  unfold typecode_using_fingerprint. cbv zeta.
  assert (Hd : ∀ ht, match fingerprint_hashtable s with
                     | Some ht => Some ht
                     | None => if hashtable_new_fails env then None else Some []
                     end = Some ht → ht = default [] (fingerprint_hashtable s)).
  { intros ht. destruct (fingerprint_hashtable s); [intros [= <-]; reflexivity|].
    destruct (hashtable_new_fails env); [discriminate | intros [= <-]; reflexivity]. }
  destruct (match fingerprint_hashtable s with
            | Some ht => Some ht
            | None => if hashtable_new_fails env then None else Some []
            end) as [ht|].
  2:{ intros [= <- <-]. split; [left; reflexivity | intros Hne; contradiction]. }
  specialize (Hd ht eq_refl). subst ht.
  destruct (compute_fingerprint _ _ val) as [w|e w|]; [| |discriminate].
  - destruct (_Py_HASHTABLE_GET _ _ w) as [tc|].
    { intros [= <- <-]. split; [left; reflexivity | intros Hne; contradiction]. }
    unfold typecode_fallback_keep_ref.
    match goal with
    | |- context [_typecode_fallback d val true ?st] =>
        pose proof (fallback_state d val true st) as (_ & Ht & _ & Hl);
        destruct (_typecode_fallback d val true st) as [tc s1]
    end.
    simpl in Ht, Hl. cbn beta iota zeta.
    destruct (0 <=? tc)%Z.
    + destruct (key_malloc env).
      * destruct (hashtable_set_fails env); intros [= <- <-]; simpl;
          (split; [right; eexists; exact Hl | intros _; exact Hl]).
      * intros [= <- <-]. simpl. split; [right; eexists; exact Hl | intros _; exact Hl].
    + intros [= <- <-]. split; [right; eexists; exact Hl | intros _; exact Hl].
  - destruct e; try (intros [= <- <-]; split; [left; reflexivity | intros Hne; contradiction]).
    unfold typecode_fallback.
    match goal with
    | |- context [_typecode_fallback d val false ?st] =>
        pose proof (fallback_state d val false st) as (_ & Ht & _ & Hl);
        destruct (_typecode_fallback d val false st) as [tc s1]
    end.
    simpl in Ht, Hl. intros [= <- <-]. split; [right; eexists; exact Hl|].
    rewrite Ht. simpl. intros Hne. contradiction.
Qed.

(** X24: a call of the entry point asks the resolver at most once, and
    only about the value being classified.  Whenever the call changes one
    of the two caches, the resolver was asked with [retain_reference] set:
    a cached typecode always comes from a type object whose reference was
    kept. *)
Theorem cached_typecode_is_pinned (d : dispatcher) (env : call_env) (val : PyObject)
  (s : world) (t : Z) (s' : world) :
  typeof_typecode d env val s = Some (t, s') →
  (resolver_log s' = resolver_log s ∨ ∃ b, resolver_log s' = (val, b) :: resolver_log s)
  ∧ (default [] (fingerprint_hashtable s') ≠ default [] (fingerprint_hashtable s)
     ∨ cached_arycode s' ≠ cached_arycode s →
     resolver_log s' = (val, true) :: resolver_log s).
Proof.
  intros Hcall.
  assert (Hfp : typecode_using_fingerprint d env val s = Some (t, s') →
    (resolver_log s' = resolver_log s ∨ ∃ b, resolver_log s' = (val, b) :: resolver_log s)
    ∧ (default [] (fingerprint_hashtable s') ≠ default [] (fingerprint_hashtable s)
       ∨ cached_arycode s' ≠ cached_arycode s →
       resolver_log s' = (val, true) :: resolver_log s)).
  { intros E. destruct (using_fingerprint_resolver_calls d env val s t s' E) as [H1 H2].
    destruct (using_fingerprint_insert_only d env val s t s' E) as [Ha _].
    split; [exact H1|]. intros [Hne|Hne]; [exact (H2 Hne) | contradiction]. }
  destruct val as [| | | | | | | | | |a| | |]; try exact (Hfp Hcall).
  simpl in Hcall. destruct (fast_path_applicable a) eqn:Ha.
  - rewrite (typecode_ndarray_fast d env a s Ha) in Hcall.
    destruct (cached_arycode s !! _) as [v|]; [|discriminate].
    revert Hcall. destruct (v =? -1)%Z.
    + unfold typecode_fallback_keep_ref.
      pose proof (fallback_state d (NpArray a) true s) as (_ & _ & _ & Hl).
      destruct (_typecode_fallback d (NpArray a) true s) as [tc sA].
      simpl in Hl. intros [= <- <-]. simpl.
      split; [right; eexists; exact Hl | intros _; exact Hl].
    + intros [= <- <-]. split; [left; reflexivity|].
      intros [Hne|Hne]; contradiction.
  - rewrite (typecode_ndarray_fallthrough d env a s Ha) in Hcall. exact (Hfp Hcall).
Qed.

Lemma cached_typecode_is_pinned_witness :
  resolver_log (state_after (typeof_typecode disp_kind) [(env_at 0, NpArray ary_c)]
                  typeof_init)
  = (NpArray ary_c, true) :: resolver_log typeof_init.
Proof.
  apply (proj2 (cached_typecode_is_pinned disp_kind (env_at 0) (NpArray ary_c) typeof_init
                  167%Z _ eq_refl)).
  right. vm_compute. discriminate.
Defined.
